(** * hailo_perf_query: the telemetry query tool, embedded and verified

  The program under study is [hailo_perf_query.cpp]: one [main] that scans
  for accelerator devices, opens the first one, issues a performance query
  and a health query, and prints both results as a JSON object with
  [printf].

  The embedding has four layers:
  - the C integer conversions and the [printf] conversions [%d], [%lld]
    and [%g] that [main] uses ([Module CInt], [Module Printf]);
  - the HailoRT values [main] consumes ([Expected], the two stat structs);
  - [main] itself, as a program over the four SDK calls and the two output
    streams ([prog], [run], [main]);
  - a recogniser for JSON texts (RFC 8259), a character-level pushdown
    automaton, against which the printed text is judged ([Module Json]). *)

From Stdlib Require Import ZArith String Ascii List Bool Lia.
From Stdlib Require Import DecimalString DecimalZ DecimalPos DecimalFacts.
From Stdlib Require Import Floats.SpecFloat.
Import ListNotations.

Local Open Scope string_scope.
Local Open Scope Z_scope.

(** ** C integer conversions *)

Module CInt.

(** Conversion to a signed two's-complement integer of [bits] bits: the
    value is reduced modulo [2^bits] into [-2^(bits-1), 2^(bits-1)). *)
Definition to_signed (bits : Z) (v : Z) : Z :=
  (v + 2 ^ (bits - 1)) mod 2 ^ bits - 2 ^ (bits - 1).

(** [(int)v] *)
Definition to_int (v : Z) : Z := to_signed 32 v.

(** [(long long)v] *)
Definition to_long_long (v : Z) : Z := to_signed 64 v.

Definition INT_MIN : Z := - 2 ^ 31.
Definition INT_MAX : Z := 2 ^ 31 - 1.
Definition LLONG_MAX : Z := 2 ^ 63 - 1.
Definition UINT32_MAX : Z := 2 ^ 32 - 1.
Definition UINT64_MAX : Z := 2 ^ 64 - 1.

End CInt.

(** ** The [printf] conversions used by [main] *)

Module Printf.

(** Decimal numeral of a signed integer, as [%d] and [%lld] print it:
    an optional minus sign, then the digits without leading zeros. *)
Definition decimal (z : Z) : string := NilZero.string_of_int (Z.to_int z).

Definition fmt_d (z : Z) : string := decimal (CInt.to_int z).
Definition fmt_lld (z : Z) : string := decimal (CInt.to_long_long z).

Definition digit_char (d : Z) : ascii := ascii_of_nat (48 + Z.to_nat d).

(** The [n] low decimal digits of [d], most significant first. *)
Fixpoint fixed_digits (n : nat) (d : Z) : string :=
  match n with
  | O => ""
  | S n' => fixed_digits n' (d / 10) ++ String (digit_char (d mod 10)) ""
  end.

Fixpoint zeros (n : nat) : string :=
  match n with
  | O => ""
  | S n' => String "0" (zeros n')
  end.

Fixpoint take (n : nat) (s : string) : string :=
  match n, s with
  | S n', String c s' => String c (take n' s')
  | _, _ => ""
  end.

Fixpoint drop (n : nat) (s : string) : string :=
  match n, s with
  | S n', String _ s' => drop n' s'
  | _, _ => s
  end.

(** Removal of the trailing zeros of a fraction. *)
Fixpoint strip_zeros (s : string) : string :=
  match s with
  | "" => ""
  | String c s' =>
      match strip_zeros s' with
      | "" => if Ascii.eqb c "0" then "" else String c ""
      | t => String c t
      end
  end.

(** The fraction of a numeral, with its point; nothing when the fraction
    is empty once its trailing zeros are gone. *)
Definition fraction (digits : string) : string :=
  match strip_zeros digits with
  | "" => ""
  | t => String "." t
  end.

(** Number of decimal digits of a positive integer. *)
Fixpoint ndigits_fuel (fuel : nat) (n : Z) : Z :=
  match fuel with
  | O => 1
  | S fuel' => if n <? 10 then 1 else 1 + ndigits_fuel fuel' (n / 10)
  end.

Definition ndigits (n : Z) : Z := ndigits_fuel (Z.to_nat (Z.log2 n)) n.

(** [10^x <= num / den], for positive [num] and [den]. *)
Definition pow10_le (x num den : Z) : bool :=
  if 0 <=? x then 10 ^ x * den <=? num else den <=? num * 10 ^ (- x).

(** The decimal exponent of the positive rational [num / den]: the [x]
    with [10^x <= num / den < 10^(x+1)]. *)
Definition decimal_exponent (num den : Z) : Z :=
  let x := ndigits num - ndigits den in
  if pow10_le x num den then x else x - 1.

(** Rounding of [n / m] to an integer, ties to even. *)
Definition round_half_even (n m : Z) : Z :=
  let q := n / m in
  let r := n mod m in
  if 2 * r <? m then q
  else if m <? 2 * r then q + 1
  else if Z.even q then q else q + 1.

(** [|x|] rounded to six significant decimal digits: the six-digit
    integer [d] and the exponent [x] with [|x| ~ d * 10^(x-5)], after the
    carry of a mantissa that rounds up to [10^6]. *)
Definition six_digits (m : positive) (e : Z) : Z * Z :=
  let num := if 0 <=? e then Z.pos m * 2 ^ e else Z.pos m in
  let den := if 0 <=? e then 1 else 2 ^ (- e) in
  let x := decimal_exponent num den in
  let d :=
    if 0 <=? 5 - x
    then round_half_even (num * 10 ^ (5 - x)) den
    else round_half_even num (den * 10 ^ (x - 5)) in
  if d =? 1000000 then (100000, x + 1) else (d, x).

(** The exponent field of the [e] style: a sign and at least two
    digits. *)
Definition exponent_field (x : Z) : string :=
  (if x <? 0 then "e-" else "e+") ++
  (if Z.abs x <? 10 then String "0" (decimal (Z.abs x))
   else decimal (Z.abs x)).

(** [%g] of a finite non-zero magnitude, default precision 6: style [f]
    when the exponent [x] satisfies [-4 <= x < 6], style [e] otherwise;
    trailing zeros of the fraction are removed, and the point with them
    when no fraction is left. *)
Definition fmt_g_magnitude (m : positive) (e : Z) : string :=
  let '(d, x) := six_digits m e in
  let ds := fixed_digits 6 d in
  if (-4 <=? x) && (x <? 6) then
    if 0 <=? x
    then take (Z.to_nat (x + 1)) ds ++ fraction (drop (Z.to_nat (x + 1)) ds)
    else "0" ++ fraction (zeros (Z.to_nat (- x - 1)) ++ ds)
  else
    take 1 ds ++ fraction (drop 1 ds) ++ exponent_field x.

Definition sign_prefix (s : bool) : string := if s then "-" else "".

(** [%g] of a double: [inf] and [nan] for the non-finite values.  A NaN
    has no sign in [spec_float]; the sign that [printf] may print before
    [nan] is left out. *)
Definition fmt_g (x : spec_float) : string :=
  match x with
  | S754_zero s => sign_prefix s ++ "0"
  | S754_infinity s => sign_prefix s ++ "inf"
  | S754_nan => "nan"
  | S754_finite s m e => sign_prefix s ++ fmt_g_magnitude m e
  end.

(** The values [%g] prints as a number: all but the infinities and
    NaN. *)
Definition is_finite (x : spec_float) : bool :=
  match x with
  | S754_zero _ | S754_finite _ _ _ => true
  | S754_infinity _ | S754_nan => false
  end.

(** A variadic argument, by the type [printf] reads it at. *)
Inductive arg : Type :=
| arg_double (x : spec_float)
| arg_int (z : Z)
| arg_long_long (z : Z).

(** The formatted text of [printf(fmt, args...)], for the conversions
    [%g], [%d] and [%lld].  A conversion whose argument is missing or of
    another type (undefined in C, and not exercised by [main]) prints
    nothing. *)
Fixpoint sprintf (fmt : string) (args : list arg) : string :=
  match fmt with
  | "" => ""
  | String "%" (String "g" rest) =>
      match args with
      | arg_double x :: args' => fmt_g x ++ sprintf rest args'
      | _ => sprintf rest (tl args)
      end
  | String "%" (String "d" rest) =>
      match args with
      | arg_int z :: args' => fmt_d z ++ sprintf rest args'
      | _ => sprintf rest (tl args)
      end
  | String "%" (String "l" (String "l" (String "d" rest))) =>
      match args with
      | arg_long_long z :: args' => fmt_lld z ++ sprintf rest args'
      | _ => sprintf rest (tl args)
      end
  | String c rest => String c (sprintf rest args)
  end.

End Printf.

(** ** C string literals *)

Module CString.

Definition octal_digit (c : ascii) : option nat :=
  let n := nat_of_ascii c in
  if (48 <=? n)%nat && (n <=? 55)%nat then Some (n - 48)%nat else None.

(** The characters of a C string literal: [\n] is the newline and
    [\ooo] the character of octal code [ooo].  The double quote, which
    the source writes as a backslash escape too, is spelled [\042]. *)
Fixpoint lit (s : string) : string :=
  match s with
  | "" => ""
  | String c rest =>
      if negb (Ascii.eqb c "\") then String c (lit rest) else
      match rest with
      | "" => String c ""
      | String a rest1 =>
          if Ascii.eqb a "n" then String "010" (lit rest1) else
          match rest1 with
          | String b (String d rest3) =>
              match octal_digit a, octal_digit b, octal_digit d with
              | Some x, Some y, Some z =>
                  String (ascii_of_nat (64 * x + 8 * y + z)) (lit rest3)
              | _, _, _ => String c (lit rest)
              end
          | _ => String c (lit rest)
          end
      end
  end.

End CString.

(** ** HailoRT values *)

Module HailoRT.

(** [hailo_status]: the numeric status code of an SDK call. *)
Definition hailo_status : Type := Z.

(** [Expected<T>]: a value, or the status of the failure. *)
Inductive Expected (T : Type) : Type :=
| Value (v : T)
| Unexpected (status : hailo_status).
Arguments Value {T} v.
Arguments Unexpected {T} status.

(** [operator bool] of [Expected<T>] *)
Definition has_value {T : Type} (e : Expected T) : bool :=
  match e with Value _ => true | Unexpected _ => false end.

(** Modelled from the spec: the field types of the two stat structs, whose
    declaration ([hailo/hailort.hpp]) is not part of the repository.  The
    floating fields are IEEE values; the integer fields hold their
    mathematical value, with the ranges of section 3 of the specification
    stated by [perf_in_range] and [health_in_range]. *)
Record hailo_performance_stats_t : Type := {
  cpu_utilization : spec_float;
  ram_size_total : Z;
  ram_size_used : Z;
  nnc_utilization : spec_float;
  dsp_utilization : Z
}.

Record hailo_health_stats_t : Type := {
  on_die_temperature : spec_float;
  on_die_voltage : Z;
  bist_failure_mask : Z
}.

(** Section 3: the byte counts are 64-bit unsigned; [dsp_utilization] is
    an integer. *)
Definition perf_in_range (p : hailo_performance_stats_t) : Prop :=
  0 <= ram_size_total p <= CInt.UINT64_MAX /\
  0 <= ram_size_used p <= CInt.UINT64_MAX /\
  CInt.INT_MIN <= dsp_utilization p <= CInt.INT_MAX.

(** Section 3: [on_die_voltage] is an integer and [bist_failure_mask] an
    integer bitmask, here of 32 bits. *)
Definition health_in_range (h : hailo_health_stats_t) : Prop :=
  CInt.INT_MIN <= on_die_voltage h <= CInt.INT_MAX /\
  0 <= bist_failure_mask h <= CInt.UINT32_MAX.

End HailoRT.

Export HailoRT.

(** ** Programs over the SDK and the output streams *)

Inductive stream : Type := stdout | stderr.

Section Program.

(** The open device handle ([std::unique_ptr<Device>]), opaque. *)
Variable Device : Type.

(** The four SDK operations [main] calls. *)
Inductive hailo_call : Type :=
| Device_scan
| Device_create (device_id : string)
| query_performance_stats (device : Device)
| query_health_stats (device : Device).

Definition response (c : hailo_call) : Type :=
  match c with
  | Device_scan => Expected (list string)
  | Device_create _ => Expected Device
  | query_performance_stats _ => Expected hailo_performance_stats_t
  | query_health_stats _ => Expected hailo_health_stats_t
  end.

(** A program: it returns, calls the SDK and continues with the answer, or
    prints on a stream and continues. *)
Inductive prog (R : Type) : Type :=
| Ret (r : R)
| Call (c : hailo_call) (k : response c -> prog R)
| Fprintf (f : stream) (fmt : string) (args : list Printf.arg) (k : prog R).
Arguments Ret {R} r.
Arguments Call {R} c k.
Arguments Fprintf {R} f fmt args k.

Fixpoint bind {A B : Type} (p : prog A) (q : A -> prog B) : prog B :=
  match p with
  | Ret a => q a
  | Call c k => Call c (fun x => bind (k x) q)
  | Fprintf f fmt args k => Fprintf f fmt args (bind k q)
  end.

Definition call (c : hailo_call) : prog (response c) := Call c Ret.
Definition fprintf (f : stream) (fmt : string) (args : list Printf.arg)
  : prog unit := Fprintf f fmt args (Ret tt).
Definition printf : string -> list Printf.arg -> prog unit := fprintf stdout.

(** What a run does, in order: an SDK call with its answer, or a
    [printf] with its format and arguments. *)
Inductive event : Type :=
| ev_scan (r : Expected (list string))
| ev_create (device_id : string) (r : Expected Device)
| ev_performance (device : Device) (r : Expected hailo_performance_stats_t)
| ev_health (device : Device) (r : Expected hailo_health_stats_t)
| ev_print (f : stream) (fmt : string) (args : list Printf.arg).

Definition ev_call (c : hailo_call) : response c -> event :=
  match c with
  | Device_scan => ev_scan
  | Device_create id => ev_create id
  | query_performance_stats d => ev_performance d
  | query_health_stats d => ev_health d
  end.

(** The observable state of the process: the text written to each stream,
    and the events so far. *)
Record process : Type := {
  out : string;
  err : string;
  trace : list event
}.

Definition start : process := {| out := ""; err := ""; trace := [] |}.

Definition write (f : stream) (text : string) (e : event) (ps : process)
  : process :=
  match f with
  | stdout =>
      {| out := out ps ++ text; err := err ps; trace := trace ps ++ [e] |}
  | stderr =>
      {| out := out ps; err := err ps ++ text; trace := trace ps ++ [e] |}
  end.

Definition record (e : event) (ps : process) : process :=
  {| out := out ps; err := err ps; trace := trace ps ++ [e] |}.

(** The SDK and the device behind it: any function from a call and the
    state of the world to an answer and the next state. *)
Definition sdk (W : Type) : Type :=
  forall c : hailo_call, W -> response c * W.

Fixpoint run {W R : Type} (h : sdk W) (p : prog R) (w : W) (ps : process)
  : R * W * process :=
  match p with
  | Ret r => (r, w, ps)
  | Call c k =>
      let (x, w') := h c w in run h (k x) w' (record (ev_call c x) ps)
  | Fprintf f fmt args k =>
      run h k w (write f (Printf.sprintf fmt args) (ev_print f fmt args) ps)
  end.

End Program.

Arguments Device_scan {Device}.
Arguments Device_create {Device} device_id.
Arguments query_performance_stats {Device} device.
Arguments query_health_stats {Device} device.
Arguments Ret {Device R} r.
Arguments Call {Device R} c k.
Arguments Fprintf {Device R} f fmt args k.
Arguments bind {Device A B} p q.
Arguments call {Device} c.
Arguments fprintf {Device} f fmt args.
Arguments printf {Device} _ _.
Arguments ev_scan {Device} r.
Arguments ev_create {Device} device_id r.
Arguments ev_performance {Device} device r.
Arguments ev_health {Device} device r.
Arguments ev_call {Device} c _.
Arguments ev_print {Device} f fmt args.
Arguments out {Device} p.
Arguments err {Device} p.
Arguments trace {Device} p.
Arguments start {Device}.
Arguments run {Device W R} h p w ps.

Declare Scope prog_scope.
Delimit Scope prog_scope with prog.
Notation "x <- p ;; q" := (bind p (fun x => q))
(at level 61, p at next level, right associativity) : prog_scope.
Notation "p ;; q" := (bind p (fun _ => q))
(at level 61, right associativity) : prog_scope.

(** ** The program *)

Section Main.

Context {Device : Type}.

Import CString Printf CInt.
Local Open Scope prog_scope.

(** [if (perf) { ... } else { ... }] *)
Definition print_perf (perf : Expected hailo_performance_stats_t)
  : prog Device unit :=
  match perf with
  | Value p =>
      printf (lit "  \042cpu_utilization\042: %g,\n")
             [arg_double (cpu_utilization p)] ;;
      printf (lit "  \042ram_size_total\042: %lld,\n")
             [arg_long_long (to_long_long (ram_size_total p))] ;;
      printf (lit "  \042ram_size_used\042: %lld,\n")
             [arg_long_long (to_long_long (ram_size_used p))] ;;
      printf (lit "  \042nnc_utilization\042: %g,\n")
             [arg_double (nnc_utilization p)] ;;
      printf (lit "  \042dsp_utilization\042: %d,\n")
             [arg_int (dsp_utilization p)] ;;
      printf (lit "  \042perf_ok\042: true,\n") []
  | Unexpected status =>
      printf (lit "  \042perf_ok\042: false,\n") [] ;;
      printf (lit "  \042perf_error\042: %d,\n") [arg_int (to_int status)]
  end.

(** [if (health) { ... } else { ... }] *)
Definition print_health (health : Expected hailo_health_stats_t)
  : prog Device unit :=
  match health with
  | Value h =>
      printf (lit "  \042on_die_temperature\042: %g,\n")
             [arg_double (on_die_temperature h)] ;;
      printf (lit "  \042on_die_voltage\042: %d,\n")
             [arg_int (on_die_voltage h)] ;;
      printf (lit "  \042bist_failure_mask\042: %d,\n")
             [arg_int (bist_failure_mask h)] ;;
      printf (lit "  \042health_ok\042: true\n") []
  | Unexpected status =>
      printf (lit "  \042health_ok\042: false,\n") [] ;;
      printf (lit "  \042health_error\042: %d\n") [arg_int (to_int status)]
  end.

(** [int main()]; the result is the exit code. *)
Definition main : prog Device Z :=
  scan_result <- call Device_scan ;;
  match scan_result with
  | Value (first :: _) =>
      device <- call (Device_create first) ;;
      match device with
      | Value dev =>
          perf <- call (query_performance_stats dev) ;;
          health <- call (query_health_stats dev) ;;
          printf (lit "{\n") [] ;;
          print_perf perf ;;
          print_health health ;;
          printf (lit "}\n") [] ;;
          Ret 0
      | Unexpected status =>
          fprintf stderr
            (lit "hailo_perf_query: failed to open device (status=%d)\n")
            [arg_int (to_int status)] ;;
          Ret 1
      end
  | Value [] | Unexpected _ =>
      fprintf stderr (lit "hailo_perf_query: no devices found\n") [] ;;
      Ret 1
  end.

(** One execution of the process against an SDK [h] in world [w]. *)
Definition exec {W : Type} (h : sdk Device W) (w : W) : Z * process Device :=
  let '(code, _, ps) := run h main w start in (code, ps).

Definition exit_code {W : Type} (h : sdk Device W) (w : W) : Z :=
  fst (exec h w).
Definition stdout_of {W : Type} (h : sdk Device W) (w : W) : string :=
  out (snd (exec h w)).
Definition stderr_of {W : Type} (h : sdk Device W) (w : W) : string :=
  err (snd (exec h w)).
Definition trace_of {W : Type} (h : sdk Device W) (w : W)
  : list (event Device) :=
  trace (snd (exec h w)).

End Main.

(** ** The output as the specification describes it *)

Module Rendering.

Import Printf.

Definition quote : ascii := "034".
Definition newline : ascii := "010".

(** A member value of the report: a floating field, an integer field, an
    error code, or one of the two flags. *)
Inductive jvalue : Type :=
| j_float (x : spec_float)
| j_int (z : Z)
| j_bool (b : bool).

Inductive jtype : Type := t_number | t_boolean.

Definition type_of (v : jvalue) : jtype :=
  match v with
  | j_float _ | j_int _ => t_number
  | j_bool _ => t_boolean
  end.

(** Section 4.4: the floating fields in the general representation, the
    integer fields in decimal. *)
Definition render_value (v : jvalue) : string :=
  match v with
  | j_float x => fmt_g x
  | j_int z => decimal z
  | j_bool true => "true"
  | j_bool false => "false"
  end.

(** Section 4.4, the performance block: the five fields and then the flag
    on success; the flag and then the error code on failure. *)
Definition perf_members (perf : Expected hailo_performance_stats_t)
  : list (string * jvalue) :=
  match perf with
  | Value p =>
      [("cpu_utilization", j_float (cpu_utilization p));
       ("ram_size_total", j_int (CInt.to_long_long (ram_size_total p)));
       ("ram_size_used", j_int (CInt.to_long_long (ram_size_used p)));
       ("nnc_utilization", j_float (nnc_utilization p));
       ("dsp_utilization", j_int (CInt.to_int (dsp_utilization p)));
       ("perf_ok", j_bool true)]
  | Unexpected status =>
      [("perf_ok", j_bool false);
       ("perf_error", j_int (CInt.to_int status))]
  end.

(** Section 4.4, the health block, by the symmetric rule. *)
Definition health_members (health : Expected hailo_health_stats_t)
  : list (string * jvalue) :=
  match health with
  | Value h =>
      [("on_die_temperature", j_float (on_die_temperature h));
       ("on_die_voltage", j_int (CInt.to_int (on_die_voltage h)));
       ("bist_failure_mask", j_int (CInt.to_int (bist_failure_mask h)));
       ("health_ok", j_bool true)]
  | Unexpected status =>
      [("health_ok", j_bool false);
       ("health_error", j_int (CInt.to_int status))]
  end.

(** Section 6: one member per line, two spaces of indentation, a comma
    after every member but the last. *)
Fixpoint render_members (ms : list (string * string)) : string :=
  match ms with
  | [] => ""
  | (key, value) :: rest =>
      "  " ++ String quote key ++ String quote ": " ++ value ++
      match rest with
      | [] => String newline ""
      | _ => "," ++ String newline (render_members rest)
      end
  end.

Definition render_object (ms : list (string * string)) : string :=
  "{" ++ String newline (render_members ms) ++ "}" ++ String newline "".

Definition rendered (ms : list (string * jvalue)) : list (string * string) :=
  map (fun m => (fst m, render_value (snd m))) ms.

(** [render(perf, health)] of section 4.4. *)
Definition render (perf : Expected hailo_performance_stats_t)
  (health : Expected hailo_health_stats_t) : string :=
  render_object (rendered (perf_members perf ++ health_members health)).

(** No member is an infinity or a NaN. *)
Definition finite_value (v : jvalue) : bool :=
  match v with
  | j_float x => is_finite x
  | j_int _ | j_bool _ => true
  end.

Definition all_finite (ms : list (string * jvalue)) : bool :=
  forallb (fun m => finite_value (snd m)) ms.

(** The floating fields of a query result are finite. *)
Definition finite_performance (perf : Expected hailo_performance_stats_t)
  : bool :=
  match perf with
  | Value p => is_finite (cpu_utilization p) && is_finite (nnc_utilization p)
  | Unexpected _ => true
  end.

Definition finite_health (health : Expected hailo_health_stats_t) : bool :=
  match health with
  | Value h => is_finite (on_die_temperature h)
  | Unexpected _ => true
  end.

End Rendering.

(** ** Reading the printed text back *)

Module Text.

Import Rendering.

Definition is_quote (c : ascii) : bool := Ascii.eqb c quote.
Definition is_newline (c : ascii) : bool := Ascii.eqb c newline.
Definition is_comma (c : ascii) : bool := Ascii.eqb c ",".

Fixpoint all_chars (p : ascii -> bool) (s : string) : bool :=
  match s with
  | "" => true
  | String c s' => p c && all_chars p s'
  end.

(** The lines of a text; a final newline opens no further line. *)
Fixpoint lines (s : string) : list string :=
  match s with
  | "" => []
  | String c s' =>
      if is_newline c then "" :: lines s'
      else match lines s' with
           | [] => [String c ""]
           | l :: ls => String c l :: ls
           end
  end.

(** The characters before the first quote, and those after it. *)
Fixpoint until_quote (s : string) : option (string * string) :=
  match s with
  | "" => None
  | String c s' =>
      if is_quote c then Some ("", s')
      else match until_quote s' with
           | Some (a, b) => Some (String c a, b)
           | None => None
           end
  end.

(** A value without the comma that may end its line. *)
Fixpoint strip_comma (s : string) : string :=
  match s with
  | "" => ""
  | String c s' =>
      match s' with
      | "" => if is_comma c then "" else s
      | _ => String c (strip_comma s')
      end
  end.

(** The member on a line: two spaces, the quoted key, a colon and a
    space, the value, and possibly a final comma. *)
Definition member_of_line (l : string) : option (string * string) :=
  match l with
  | String " " (String " " (String q rest)) =>
      if is_quote q then
        match until_quote rest with
        | Some (key, String ":" (String " " value)) =>
            Some (key, strip_comma value)
        | _ => None
        end
      else None
  | _ => None
  end.

Fixpoint members_of_lines (ls : list string) : list (string * string) :=
  match ls with
  | [] => []
  | l :: ls' =>
      match member_of_line l with
      | Some m => m :: members_of_lines ls'
      | None => members_of_lines ls'
      end
  end.

(** The members of a printed report, in the order of the text. *)
Definition members_of_text (s : string) : list (string * string) :=
  members_of_lines (lines s).

Definition keys_of_text (s : string) : list string :=
  map fst (members_of_text s).

Fixpoint value_of (key : string) (ms : list (string * string))
  : option string :=
  match ms with
  | [] => None
  | (k, v) :: rest => if String.eqb k key then Some v else value_of key rest
  end.

(** The value printed for [key], if the text has a member of that name. *)
Definition field (key : string) (s : string) : option string :=
  value_of key (members_of_text s).

Definition is_digit (c : ascii) : bool :=
  let n := nat_of_ascii c in (48 <=? n)%nat && (n <=? 57)%nat.

(** The integer a decimal numeral denotes. *)
Definition numeral_value (s : string) : option Z :=
  option_map Z.of_int (NilZero.int_of_string s).

(** The number a non-negative decimal numeral denotes: digits only, no
    sign. *)
Definition unsigned_numeral (s : string) : option Z :=
  if all_chars is_digit s then numeral_value s else None.

Fixpoint starts_with (prefix s : string) : bool :=
  match prefix, s with
  | "", _ => true
  | String a p', String b s' => Ascii.eqb a b && starts_with p' s'
  | _, "" => false
  end.

Fixpoint ends_with (suffix s : string) : bool :=
  String.eqb suffix s ||
  match s with
  | "" => false
  | String _ s' => ends_with suffix s'
  end.

(** [needle] occurs in [s]. *)
Fixpoint contains (needle s : string) : bool :=
  starts_with needle s ||
  match s with
  | "" => false
  | String _ s' => contains needle s'
  end.

Fixpoint count_char (p : ascii -> bool) (s : string) : nat :=
  match s with
  | "" => O
  | String c s' => ((if p c then 1 else 0) + count_char p s')%nat
  end.

(** A single line: some text without newline, then the one newline. *)
Definition single_line (s : string) : bool :=
  (count_char is_newline s =? 1)%nat && ends_with (String newline "") s.

(** The rest of [s] when [s] begins with [prefix]. *)
Fixpoint strip_prefix (prefix s : string) : option string :=
  match prefix, s with
  | "", _ => Some s
  | String a p', String b s' =>
      if Ascii.eqb a b then strip_prefix p' s' else None
  | _, "" => None
  end.

(** The text after the first occurrence of [needle]. *)
Fixpoint after (needle s : string) : option string :=
  match strip_prefix needle s with
  | Some rest => Some rest
  | None =>
      match s with
      | "" => None
      | String _ s' => after needle s'
      end
  end.

(** The characters before the first [stop]. *)
Fixpoint before (stop : ascii) (s : string) : string :=
  match s with
  | "" => ""
  | String c s' => if Ascii.eqb c stop then "" else String c (before stop s')
  end.

(** The status a message reports: the integer that the decimal numeral
    between [status=] and the next closing parenthesis denotes. *)
Definition reported_status (message : string) : option Z :=
  match after "status=" message with
  | Some rest => numeral_value (before ")" rest)
  | None => None
  end.

(** The characters a numeric conversion can print. *)
Definition is_numeric (c : ascii) : bool :=
  is_digit c || Ascii.eqb c "." || Ascii.eqb c "e" || Ascii.eqb c "+"
  || Ascii.eqb c "-" || Ascii.eqb c "i" || Ascii.eqb c "n"
  || Ascii.eqb c "f" || Ascii.eqb c "a".

(** A key the reader gets back: no quote and no newline in it. *)
Definition key_ok (k : string) : bool :=
  all_chars (fun c => negb (is_quote c) && negb (is_newline c)) k.

(** A value the reader gets back: no comma and no newline in it. *)
Definition value_ok (v : string) : bool :=
  all_chars (fun c => negb (is_comma c) && negb (is_newline c)) v.

(** The text of one member line, without its newline. *)
Definition member_line_text (k v : string) (comma : bool) : string :=
  "  " ++ String quote k ++ String quote ": " ++ v ++
  (if comma then "," else "").

(** Members whose keys and values the reader gets back. *)
Definition members_ok (ms : list (string * string)) : Prop :=
  Forall (fun m => key_ok (fst m) = true /\ value_ok (snd m) = true) ms.

End Text.

(** ** JSON texts (RFC 8259)

  A character-level pushdown automaton: the mode says what the grammar
  expects next, the stack lists the objects and arrays that are open. *)

Module Json.

Import Rendering Text.

Inductive container : Type := in_object | in_array.

(** Positions inside a number:
    [-], [0], [digits], [.], [fraction], [e], [e+], [exponent]. *)
Inductive num_state : Type :=
| n_minus | n_zero | n_int | n_point | n_frac | n_e | n_esign | n_exp.

Inductive mode : Type :=
| m_value                      (* a value is expected *)
| m_array_first                (* after [[]: a value or []] *)
| m_object_first               (* after [{]: a key or [}] *)
| m_key                        (* after a comma in an object: a key *)
| m_colon                      (* after a key: the colon *)
| m_after                      (* a value is complete *)
| m_string (key : bool)        (* inside a string *)
| m_escape (key : bool)        (* after a backslash in a string *)
| m_hex (key : bool) (n : nat) (* [n] hex digits of [\u] still to come *)
| m_literal (rest : string)    (* the rest of [true], [false], [null] *)
| m_number (n : num_state).

Definition config : Type := mode * list container.

Definition is_ws (c : ascii) : bool :=
  Ascii.eqb c " " || Ascii.eqb c "009" || Ascii.eqb c "010"
  || Ascii.eqb c "013".

Definition is_hex (c : ascii) : bool :=
  let n := nat_of_ascii c in
  is_digit c || ((65 <=? n)%nat && (n <=? 70)%nat)
  || ((97 <=? n)%nat && (n <=? 102)%nat).

Definition is_control (c : ascii) : bool := (nat_of_ascii c <? 32)%nat.

Definition is_exp_mark (c : ascii) : bool :=
  Ascii.eqb c "e" || Ascii.eqb c "E".

Definition is_sign (c : ascii) : bool :=
  Ascii.eqb c "+" || Ascii.eqb c "-".

Definition is_simple_escape (c : ascii) : bool :=
  is_quote c || Ascii.eqb c "\" || Ascii.eqb c "/" || Ascii.eqb c "b"
  || Ascii.eqb c "f" || Ascii.eqb c "n" || Ascii.eqb c "r"
  || Ascii.eqb c "t".

(** The first character of a value. *)
Definition begin_value (c : ascii) (stk : list container) : option config :=
  if Ascii.eqb c "{" then Some (m_object_first, in_object :: stk)
  else if Ascii.eqb c "[" then Some (m_array_first, in_array :: stk)
  else if is_quote c then Some (m_string false, stk)
  else if Ascii.eqb c "-" then Some (m_number n_minus, stk)
  else if Ascii.eqb c "0" then Some (m_number n_zero, stk)
  else if is_digit c then Some (m_number n_int, stk)
  else if Ascii.eqb c "t" then Some (m_literal "rue", stk)
  else if Ascii.eqb c "f" then Some (m_literal "alse", stk)
  else if Ascii.eqb c "n" then Some (m_literal "ull", stk)
  else None.

(** The character after a complete value. *)
Definition after_value (c : ascii) (stk : list container) : option config :=
  if is_ws c then Some (m_after, stk)
  else
    match stk with
    | in_object :: stk' =>
        if is_comma c then Some (m_key, stk)
        else if Ascii.eqb c "}" then Some (m_after, stk')
        else None
    | in_array :: stk' =>
        if is_comma c then Some (m_value, stk)
        else if Ascii.eqb c "]" then Some (m_after, stk')
        else None
    | [] => None
    end.

(** A number may end after [0], the digits, the fraction or the
    exponent. *)
Definition num_final (n : num_state) : bool :=
  match n with
  | n_zero | n_int | n_frac | n_exp => true
  | n_minus | n_point | n_e | n_esign => false
  end.

(** The next position inside a number, when [c] continues it. *)
Definition num_step (n : num_state) (c : ascii) : option num_state :=
  match n with
  | n_minus =>
      if Ascii.eqb c "0" then Some n_zero
      else if is_digit c then Some n_int else None
  | n_zero =>
      if Ascii.eqb c "." then Some n_point
      else if is_exp_mark c then Some n_e else None
  | n_int =>
      if is_digit c then Some n_int
      else if Ascii.eqb c "." then Some n_point
      else if is_exp_mark c then Some n_e else None
  | n_point => if is_digit c then Some n_frac else None
  | n_frac =>
      if is_digit c then Some n_frac
      else if is_exp_mark c then Some n_e else None
  | n_e =>
      if is_sign c then Some n_esign
      else if is_digit c then Some n_exp else None
  | n_esign => if is_digit c then Some n_exp else None
  | n_exp => if is_digit c then Some n_exp else None
  end.

Definition step (cfg : config) (c : ascii) : option config :=
  let (m, stk) := cfg in
  match m with
  | m_value =>
      if is_ws c then Some (m_value, stk) else begin_value c stk
  | m_array_first =>
      if is_ws c then Some (m_array_first, stk)
      else if Ascii.eqb c "]" then Some (m_after, tl stk)
      else begin_value c stk
  | m_object_first =>
      if is_ws c then Some (m_object_first, stk)
      else if Ascii.eqb c "}" then Some (m_after, tl stk)
      else if is_quote c then Some (m_string true, stk)
      else None
  | m_key =>
      if is_ws c then Some (m_key, stk)
      else if is_quote c then Some (m_string true, stk)
      else None
  | m_colon =>
      if is_ws c then Some (m_colon, stk)
      else if Ascii.eqb c ":" then Some (m_value, stk)
      else None
  | m_after => after_value c stk
  | m_string key =>
      if is_quote c then Some (if key then m_colon else m_after, stk)
      else if Ascii.eqb c "\" then Some (m_escape key, stk)
      else if is_control c then None
      else Some (m_string key, stk)
  | m_escape key =>
      if is_simple_escape c then Some (m_string key, stk)
      else if Ascii.eqb c "u" then Some (m_hex key 4, stk)
      else None
  | m_hex key n =>
      if is_hex c then
        match n with
        | S (S n') => Some (m_hex key (S n'), stk)
        | _ => Some (m_string key, stk)
        end
      else None
  | m_literal rest =>
      match rest with
      | String c' rest' =>
          if Ascii.eqb c c' then
            match rest' with
            | "" => Some (m_after, stk)
            | _ => Some (m_literal rest', stk)
            end
          else None
      | "" => None
      end
  | m_number n =>
      match num_step n c with
      | Some n' => Some (m_number n', stk)
      | None => if num_final n then after_value c stk else None
      end
  end.

Fixpoint run (cfg : config) (s : string) : option config :=
  match s with
  | "" => Some cfg
  | String c s' =>
      match step cfg c with
      | Some cfg' => run cfg' s'
      | None => None
      end
  end.

(** The end of the text is the end of a JSON text. *)
Definition final (cfg : config) : bool :=
  match cfg with
  | (m_after, []) => true
  | (m_number n, []) => num_final n
  | _ => false
  end.

(** [s] is a JSON text: one value, with optional whitespace around. *)
Definition accepts (s : string) : bool :=
  match run (m_value, []) s with
  | Some cfg => final cfg
  | None => false
  end.

(** The position in a number after the characters of [s]. *)
Fixpoint num_run (n : num_state) (s : string) : option num_state :=
  match s with
  | "" => Some n
  | String c s' =>
      match num_step n c with
      | Some n' => num_run n' s'
      | None => None
      end
  end.

(** The position after [s], read as a number from its first character. *)
Definition num_start (s : string) : option num_state :=
  match s with
  | "" => None
  | String c s' =>
      if Ascii.eqb c "-" then num_run n_minus s'
      else if Ascii.eqb c "0" then num_run n_zero s'
      else if is_digit c then num_run n_int s'
      else None
  end.

Definition is_nonzero_digit (c : ascii) : bool :=
  is_digit c && negb (Ascii.eqb c "0").

(** The end of a value: the mode after its last character is one in
    which the value is complete. *)
Definition value_ended (m : mode) : bool :=
  match m with
  | m_after => true
  | m_number n => num_final n
  | _ => false
  end.

(** A character that stands for itself inside a string. *)
Definition is_plain (c : ascii) : bool :=
  negb (is_quote c) && negb (Ascii.eqb c "\") && negb (is_control c).

(** [s] is a JSON number, the whole of it. *)
Definition is_number (s : string) : bool :=
  match s with
  | "" => false
  | String c _ =>
      (Ascii.eqb c "-" || is_digit c) && accepts s
  end.

(** [v] is the text of one value: from any place where a value is
    expected it is read to its end, and leaves the open containers as
    they were. *)
Definition value_token (v : string) : Prop :=
  forall stk, exists m,
    run (m_value, stk) v = Some (m, stk) /\ value_ended m = true.

(** Members with plain keys and values that are value texts. *)
Definition members_json (ms : list (string * string)) : Prop :=
  Forall (fun m => all_chars is_plain (fst m) = true /\ value_token (snd m))
         ms.

(** The six kinds of JSON value. *)
Inductive kind : Type :=
| k_null | k_boolean | k_number | k_string | k_array | k_object.

(** The kind of value that begins with [c]. *)
Definition classify (c : ascii) : option kind :=
  if Ascii.eqb c "{" then Some k_object
  else if Ascii.eqb c "[" then Some k_array
  else if is_quote c then Some k_string
  else if Ascii.eqb c "t" || Ascii.eqb c "f" then Some k_boolean
  else if Ascii.eqb c "n" then Some k_null
  else if Ascii.eqb c "-" || is_digit c then Some k_number
  else None.

(** The kind of the JSON value that the text [v] is, if [v] is a JSON
    text (without whitespace before it). *)
Definition kind_of (v : string) : option kind :=
  if accepts v then
    match v with
    | String c _ => classify c
    | "" => None
    end
  else None.

(** The members of a printed report with the kind of each value. *)
Definition kinds_of_text (s : string) : list (string * option kind) :=
  map (fun m => (fst m, kind_of (snd m))) (members_of_text s).

Definition kind_of_type (t : jtype) : kind :=
  match t with
  | t_number => k_number
  | t_boolean => k_boolean
  end.

(** [s] is one JSON object, from its opening brace to its closing brace,
    and then one newline: a newline-terminated JSON object and nothing
    else. *)
Definition object_line (s : string) : bool :=
  starts_with "{" s && ends_with ("}" ++ String newline "") s && accepts s.

End Json.

(** ** Observations on a run *)

Section Observations.

Context {Device : Type}.

(** The identifiers passed to [Device::create], in order. *)
Fixpoint opened (tr : list (event Device)) : list string :=
  match tr with
  | [] => []
  | ev_create id _ :: tr' => id :: opened tr'
  | _ :: tr' => opened tr'
  end.

(** The handles a query was issued on, in order. *)
Fixpoint queried (tr : list (event Device)) : list Device :=
  match tr with
  | [] => []
  | ev_performance d _ :: tr' => d :: queried tr'
  | ev_health d _ :: tr' => d :: queried tr'
  | _ :: tr' => queried tr'
  end.

(** The SDK operations of a run, by name, in order. *)
Inductive operation : Type := op_scan | op_create | op_performance | op_health.

Fixpoint operations (tr : list (event Device)) : list operation :=
  match tr with
  | [] => []
  | ev_scan _ :: tr' => op_scan :: operations tr'
  | ev_create _ _ :: tr' => op_create :: operations tr'
  | ev_performance _ _ :: tr' => op_performance :: operations tr'
  | ev_health _ _ :: tr' => op_health :: operations tr'
  | ev_print _ _ _ :: tr' => operations tr'
  end.

(** Whether the performance query of a run succeeded, if it was issued. *)
Fixpoint perf_status (tr : list (event Device)) : option bool :=
  match tr with
  | [] => None
  | ev_performance _ r :: _ => Some (has_value r)
  | _ :: tr' => perf_status tr'
  end.

(** Whether the health query of a run succeeded, if it was issued. *)
Fixpoint health_status (tr : list (event Device)) : option bool :=
  match tr with
  | [] => None
  | ev_health _ r :: _ => Some (has_value r)
  | _ :: tr' => health_status tr'
  end.

(** The type [printf] reads an argument at. *)
Inductive arg_type : Type := ty_double | ty_int | ty_long_long.

Definition arg_type_of (a : Printf.arg) : arg_type :=
  match a with
  | Printf.arg_double _ => ty_double
  | Printf.arg_int _ => ty_int
  | Printf.arg_long_long _ => ty_long_long
  end.

(** The schema of the printed report: for every [printf] on standard
    output, its format (which holds the key, or the flag with its
    literal) and the types of its arguments, values left out. *)
Fixpoint schema (tr : list (event Device)) : list (string * list arg_type) :=
  match tr with
  | [] => []
  | ev_print stdout fmt args :: tr' =>
      (fmt, map arg_type_of args) :: schema tr'
  | _ :: tr' => schema tr'
  end.

(** The [printf] and [fprintf] calls of a program that calls the SDK no
    more. *)
Fixpoint prints {R : Type} (p : prog Device R) : list (event Device) :=
  match p with
  | Ret _ => []
  | Call _ _ => []
  | Fprintf f fmt args k => ev_print f fmt args :: prints k
  end.

(** The part of [main] that prints the report. *)
Definition report (perf : Expected hailo_performance_stats_t)
  (health : Expected hailo_health_stats_t) : prog Device unit :=
  (printf (CString.lit "{\n") [] ;;
   print_perf perf ;;
   print_health health ;;
   printf (CString.lit "}\n") [])%prog.

(** Every floating field that a query of the run returned is finite. *)
Fixpoint floats_finite (tr : list (event Device)) : bool :=
  match tr with
  | [] => true
  | ev_performance _ r :: tr' =>
      Rendering.finite_performance r && floats_finite tr'
  | ev_health _ r :: tr' => Rendering.finite_health r && floats_finite tr'
  | _ :: tr' => floats_finite tr'
  end.


(** The value printed for [key] is a decimal numeral, signed or not,
    that denotes [v]. *)
Definition renders_signed (key : string) (v : Z) (text : string) : Prop :=
  exists numeral,
    Text.field key text = Some numeral /\
    Text.numeral_value numeral = Some v.




Definition is_print (e : event Device) : bool :=
  match e with
  | ev_print _ _ _ => true
  | _ => false
  end.

(** The value printed for [key] is the non-negative decimal numeral of
    [v]. *)
Definition renders_unsigned (key : string) (v : Z) (text : string) : Prop :=
  exists numeral,
    Text.field key text = Some numeral /\
    Text.unsigned_numeral numeral = Some v.

(** The three ways a run of [main] can go, with what each leaves
    behind. *)
Inductive shape (r : Z * process Device) : Prop :=
| shape_no_devices (scan : Expected (list string)) :
    scan = Value [] \/ (exists s, scan = Unexpected s) ->
    r = (1, {| out := "";
               err := CString.lit "hailo_perf_query: no devices found\n";
               trace :=
                 [ev_scan scan;
                  ev_print stderr
                    (CString.lit "hailo_perf_query: no devices found\n")
                    []] |}) ->
    shape r
| shape_open_failed (id : string) (ids : list string)
    (status : hailo_status) :
    r = (1, {| out := "";
               err :=
                 CString.lit
                   "hailo_perf_query: failed to open device (status="
                 ++ Printf.decimal (CInt.to_int status)
                 ++ CString.lit ")\n";
               trace :=
                 [ev_scan (Value (id :: ids));
                  ev_create id (Unexpected status);
                  ev_print stderr
                    (CString.lit
                       "hailo_perf_query: failed to open device (status=%d)\n")
                    [Printf.arg_int (CInt.to_int status)]] |}) ->
    shape r
| shape_queried (id : string) (ids : list string) (dev : Device)
    (perf : Expected hailo_performance_stats_t)
    (health : Expected hailo_health_stats_t) :
    r = (0, {| out := Rendering.render perf health;
               err := "";
               trace :=
                 [ev_scan (Value (id :: ids));
                  ev_create id (Value dev);
                  ev_performance dev perf;
                  ev_health dev health] ++ prints (report perf health) |}) ->
    shape r.

End Observations.

(** ** Devices for the examples *)

Module Scenario.

(** An SDK whose four operations give fixed answers; handles are numbered. *)
Definition scripted (scan : Expected (list string)) (open : Expected nat)
  (perf : Expected hailo_performance_stats_t)
  (health : Expected hailo_health_stats_t) : sdk nat unit :=
  fun c w =>
    match c return response nat c * unit with
    | Device_scan => (scan, w)
    | Device_create _ => (open, w)
    | query_performance_stats _ => (perf, w)
    | query_health_stats _ => (health, w)
    end.

(** An SDK with a state: it counts the calls, numbers the handle it opens
    after the position of the call, and fails the performance query. *)
Definition counting (health : hailo_health_stats_t) (code : hailo_status)
  : sdk nat nat :=
  fun c n =>
    match c return response nat c * nat with
    | Device_scan => (Value ["0001:01:00.0"; "0002:01:00.0"], S n)
    | Device_create _ => (Value n, S n)
    | query_performance_stats _ => (Unexpected code, S n)
    | query_health_stats _ => (Value health, S n)
    end.

Inductive float_format : Type := binary32 | binary64.

Definition prec (f : float_format) : Z :=
  match f with binary32 => 24 | binary64 => 53 end.
Definition emax (f : float_format) : Z :=
  match f with binary32 => 128 | binary64 => 1024 end.

(** The value of format [f] nearest to [a / b]. *)
Definition nearest (f : float_format) (a b : positive) : spec_float :=
  SFdiv (prec f) (emax f) (S754_finite false a 0) (S754_finite false b 0).

(** The device of property P3. *)
Definition p3_performance (f : float_format) : hailo_performance_stats_t :=
  {| cpu_utilization := nearest f 42 100;
     ram_size_total := 1073741824;
     ram_size_used := 536870912;
     nnc_utilization := nearest f 10 100;
     dsp_utilization := 5 |}.

Definition p3_health (f : float_format) : hailo_health_stats_t :=
  {| on_die_temperature := nearest f 555 10;
     on_die_voltage := 900;
     bist_failure_mask := 0 |}.

Definition p3_device (f : float_format) : sdk nat unit :=
  scripted (Value ["0001:01:00.0"]) (Value 0%nat)
           (Value (p3_performance f)) (Value (p3_health f)).

(** The report of property P3, as a C literal. *)
Definition p3_report : string :=
  CString.lit
    "{\n  \042cpu_utilization\042: 0.42,\n  \042ram_size_total\042: 1073741824,\n  \042ram_size_used\042: 536870912,\n  \042nnc_utilization\042: 0.1,\n  \042dsp_utilization\042: 5,\n  \042perf_ok\042: true,\n  \042on_die_temperature\042: 55.5,\n  \042on_die_voltage\042: 900,\n  \042bist_failure_mask\042: 0,\n  \042health_ok\042: true\n}\n".

(** A device whose CPU utilisation is not a number. *)
Definition nan_performance : hailo_performance_stats_t :=
  {| cpu_utilization := S754_nan;
     ram_size_total := 1073741824;
     ram_size_used := 536870912;
     nnc_utilization := nearest binary32 10 100;
     dsp_utilization := 5 |}.

Definition nan_device : sdk nat unit :=
  scripted (Value ["0001:01:00.0"]) (Value 0%nat)
           (Value nan_performance) (Value (p3_health binary32)).

(** A device whose temperature reading is infinite. *)
Definition inf_health : hailo_health_stats_t :=
  {| on_die_temperature := S754_infinity false;
     on_die_voltage := 900;
     bist_failure_mask := 0 |}.

Definition inf_device : sdk nat unit :=
  scripted (Value ["0001:01:00.0"]) (Value 0%nat)
           (Value (p3_performance binary32)) (Value inf_health).

(** A device that reports [2^63] bytes of memory and a self-test mask
    with bit 31 set: both inside the ranges of section 3. *)
Definition large_performance : hailo_performance_stats_t :=
  {| cpu_utilization := nearest binary32 42 100;
     ram_size_total := 2 ^ 63;
     ram_size_used := 536870912;
     nnc_utilization := nearest binary32 10 100;
     dsp_utilization := 5 |}.

Definition large_health : hailo_health_stats_t :=
  {| on_die_temperature := nearest binary32 555 10;
     on_die_voltage := 900;
     bist_failure_mask := 2 ^ 31 |}.

Definition large_device : sdk nat unit :=
  scripted (Value ["0001:01:00.0"]) (Value 0%nat)
           (Value large_performance) (Value large_health).

Definition no_device : sdk nat unit :=
  scripted (Value []) (Unexpected 0) (Unexpected 0) (Unexpected 0).

Definition scan_error (status : hailo_status) : sdk nat unit :=
  scripted (Unexpected status) (Unexpected 0) (Unexpected 0) (Unexpected 0).

Definition open_error (status : hailo_status) : sdk nat unit :=
  scripted (Value ["0001:01:00.0"; "0002:01:00.0"]) (Unexpected status)
           (Unexpected 0) (Unexpected 0).

End Scenario.

(** * Proofs *)

(** ** Strings and conversions *)

Lemma append_assoc (a b c : string) : (a ++ b) ++ c = a ++ (b ++ c).
Proof. induction a as [|x a IH]; simpl; [reflexivity | now rewrite IH]. Qed.

Lemma append_nil_r (a : string) : a ++ "" = a.
Proof. induction a as [|x a IH]; simpl; [reflexivity | now rewrite IH]. Qed.

Lemma to_signed_range bits v : 0 < bits -> - 2 ^ (bits - 1) <= CInt.to_signed bits v < 2 ^ (bits - 1).
Proof.
intros Hb. unfold CInt.to_signed.
assert (H2 : 2 ^ bits = 2 * 2 ^ (bits - 1)).
{ replace bits with (Z.succ (bits - 1)) at 1 by lia. apply Z.pow_succ_r. lia. }
assert (Hp : 0 < 2 ^ (bits - 1)) by (apply Z.pow_pos_nonneg; lia).
pose proof (Z.mod_pos_bound (v + 2 ^ (bits - 1)) (2 ^ bits)) as Hm. lia.
Qed.

Lemma to_signed_id bits v : 0 < bits -> - 2 ^ (bits - 1) <= v < 2 ^ (bits - 1) -> CInt.to_signed bits v = v.
Proof.
intros Hb Hv. unfold CInt.to_signed.
assert (H2 : 2 ^ bits = 2 * 2 ^ (bits - 1)).
{ replace bits with (Z.succ (bits - 1)) at 1 by lia. apply Z.pow_succ_r. lia. }
rewrite Z.mod_small by lia. lia.
Qed.

Lemma to_int_id v : CInt.INT_MIN <= v <= CInt.INT_MAX -> CInt.to_int v = v.
Proof. unfold CInt.INT_MIN, CInt.INT_MAX. intros H. apply to_signed_id; simpl; lia. Qed.

Lemma to_long_long_id v : - 2 ^ 63 <= v <= CInt.LLONG_MAX -> CInt.to_long_long v = v.
Proof. unfold CInt.LLONG_MAX. intros H. apply to_signed_id; simpl; lia. Qed.

Lemma to_int_idem v : CInt.to_int (CInt.to_int v) = CInt.to_int v.
Proof. apply to_signed_id; [lia|]. apply (to_signed_range 32 v). lia. Qed.

Lemma to_long_long_idem v : CInt.to_long_long (CInt.to_long_long v) = CInt.to_long_long v.
Proof. apply to_signed_id; [lia|]. apply (to_signed_range 64 v). lia. Qed.

Section Shape.
Context {Device W : Type}.
Implicit Types (h : sdk Device W) (w : W).

Lemma run_bind {A B} h (p : prog Device A) (q : A -> prog Device B) w ps :
  run h (bind p q) w ps =
  let '(a, w', ps') := run h p w ps in run h (q a) w' ps'.
Proof.
  revert w ps. induction p as [a|c k IH|f fmt args k IH]; intros w ps; simpl.
  - reflexivity.
  - destruct (h c w) as [x w']. apply IH.
  - apply IH.
Qed.


Import CString Printf CInt Rendering.

Local Opaque fmt_g decimal to_int to_long_long.

Lemma exec_shape h w : shape (exec h w).
Proof.
  unfold exec, main. simpl.
  destruct (h Device_scan w) as [[[|id ids]|s] w1]; simpl.
  - eapply shape_no_devices; [left; reflexivity | reflexivity].
  - destruct (h (Device_create id) w1) as [[dev|s] w2]; simpl.
    + destruct (h (query_performance_stats dev) w2) as [perf w3]; simpl.
      destruct (h (query_health_stats dev) w3) as [health w4]; simpl.
      rewrite !run_bind.
      eapply shape_queried with (id := id) (ids := ids) (dev := dev) (perf := perf) (health := health).
      destruct perf as [p|ps], health as [hs|hs].
      all: cbv -[append cpu_utilization ram_size_total ram_size_used nnc_utilization dsp_utilization on_die_temperature on_die_voltage bist_failure_mask]; unfold fmt_d, fmt_lld; rewrite ?to_int_idem, ?to_long_long_idem.
      all: simpl; repeat (rewrite append_assoc; simpl); reflexivity.
    + eapply shape_open_failed. unfold fmt_d. rewrite to_int_idem. reflexivity.
  - eapply shape_no_devices; [right; eexists; reflexivity | reflexivity].
Qed.
End Shape.

(** ** Characters of the printed numerals *)

Section Chars.

Import Printf Text Rendering.

Lemma all_chars_app p a b :
  all_chars p (a ++ b) = all_chars p a && all_chars p b.
Proof.
  induction a as [|c a IH]; simpl; [reflexivity|].
  now rewrite IH, andb_assoc.
Qed.

Lemma all_chars_weaken (p q : ascii -> bool) s :
  (forall c, p c = true -> q c = true) ->
  all_chars p s = true -> all_chars q s = true.
Proof.
  intros Hpq. induction s as [|c s IH]; simpl; [reflexivity|].
  rewrite !andb_true_iff. intros [Hc Hs]. split; auto.
Qed.

Lemma digit_char_is_digit d :
  0 <= d < 10 -> is_digit (digit_char d) = true.
Proof.
  intros H.
  assert (Hd : d = 0 \/ d = 1 \/ d = 2 \/ d = 3 \/ d = 4 \/ d = 5 \/
               d = 6 \/ d = 7 \/ d = 8 \/ d = 9) by lia.
  repeat (destruct Hd as [-> | Hd]; [reflexivity|]). now subst.
Qed.

Lemma fixed_digits_digits n d : all_chars is_digit (fixed_digits n d) = true.
Proof.
  revert d. induction n as [|n IH]; intros d; simpl; [reflexivity|].
  rewrite all_chars_app, IH. cbn [all_chars andb].
  rewrite digit_char_is_digit; [reflexivity|].
  apply Z.mod_pos_bound. lia.
Qed.

Lemma zeros_digits n : all_chars is_digit (zeros n) = true.
Proof. induction n as [|n IH]; simpl; auto. Qed.

Lemma take_chars p n s : all_chars p s = true -> all_chars p (take n s) = true.
Proof.
  revert s. induction n as [|n IH]; intros [|c s]; simpl; try reflexivity.
  rewrite !andb_true_iff. intros [Hc Hs]. split; auto.
Qed.

Lemma drop_chars p n s : all_chars p s = true -> all_chars p (drop n s) = true.
Proof.
  revert s. induction n as [|n IH]; intros [|c s]; simpl; try reflexivity; auto.
  rewrite !andb_true_iff. intros [Hc Hs]. auto.
Qed.

Lemma strip_zeros_chars p s :
  all_chars p s = true -> all_chars p (strip_zeros s) = true.
Proof.
  induction s as [|c s IH]; simpl; [reflexivity|].
  rewrite andb_true_iff. intros [Hc Hs]. specialize (IH Hs).
  destruct (strip_zeros s) as [|c' t].
  - destruct (Ascii.eqb c "0"); simpl; [reflexivity|]. now rewrite Hc.
  - simpl in *. now rewrite Hc, IH.
Qed.

Lemma uint_digits d : all_chars is_digit (NilEmpty.string_of_uint d) = true.
Proof. induction d; simpl; auto. Qed.

Lemma nilzero_uint_digits d :
  all_chars is_digit (NilZero.string_of_uint d) = true.
Proof. destruct d; try reflexivity; apply (uint_digits (_ _)). Qed.

Lemma decimal_nonneg_digits z :
  0 <= z -> all_chars is_digit (decimal z) = true.
Proof.
  intros Hz. unfold decimal. destruct z as [|p|p]; try lia.
  - reflexivity.
  - simpl. apply nilzero_uint_digits.
Qed.

Lemma digit_numeric c : is_digit c = true -> is_numeric c = true.
Proof. unfold is_numeric. now intros ->. Qed.

Lemma digits_numeric s :
  all_chars is_digit s = true -> all_chars is_numeric s = true.
Proof. apply all_chars_weaken, digit_numeric. Qed.

Lemma decimal_numeric z : all_chars is_numeric (decimal z) = true.
Proof.
  unfold decimal. destruct z as [|p|p]; simpl.
  - reflexivity.
  - apply digits_numeric, nilzero_uint_digits.
  - apply digits_numeric, nilzero_uint_digits.
Qed.

Lemma fraction_numeric s :
  all_chars is_digit s = true -> all_chars is_numeric (fraction s) = true.
Proof.
  intros H. unfold fraction.
  pose proof (strip_zeros_chars _ _ H) as Hs.
  destruct (strip_zeros s) as [|c t]; [reflexivity|].
  change (all_chars is_numeric (String c t) = true).
  now apply digits_numeric.
Qed.

Lemma exponent_field_numeric x :
  all_chars is_numeric (exponent_field x) = true.
Proof.
  unfold exponent_field. rewrite all_chars_app.
  apply andb_true_iff. split.
  - now destruct (x <? 0).
  - destruct (Z.abs x <? 10); [simpl|]; apply decimal_numeric.
Qed.

Lemma fmt_g_magnitude_numeric m e :
  all_chars is_numeric (fmt_g_magnitude m e) = true.
Proof.
  unfold fmt_g_magnitude. destruct (six_digits m e) as [d x].
  pose proof (fixed_digits_digits 6 d) as Hd.
  destruct ((-4 <=? x) && (x <? 6)); [destruct (0 <=? x)|].
  - rewrite all_chars_app, fraction_numeric by now apply drop_chars.
    rewrite digits_numeric by now apply take_chars. reflexivity.
  - rewrite all_chars_app, fraction_numeric; [reflexivity|].
    now rewrite all_chars_app, zeros_digits.
  - rewrite !all_chars_app, fraction_numeric by now apply drop_chars.
    rewrite digits_numeric by now apply take_chars.
    now rewrite exponent_field_numeric.
Qed.

Lemma fmt_g_numeric x : all_chars is_numeric (fmt_g x) = true.
Proof.
  destruct x as [s|s| |s m e]; simpl.
  - now destruct s.
  - now destruct s.
  - reflexivity.
  - rewrite all_chars_app, fmt_g_magnitude_numeric. now destruct s.
Qed.

Lemma render_value_numeric v :
  type_of v = t_number -> all_chars is_numeric (render_value v) = true.
Proof.
  destruct v as [x|z|b]; simpl; intros H.
  - apply fmt_g_numeric.
  - apply decimal_numeric.
  - discriminate.
Qed.

End Chars.

(** ** Reading a rendered report back *)

Section Reading.

Import Printf Text Rendering.

Lemma numeric_plain c :
  is_numeric c = true ->
  is_newline c = false /\ is_comma c = false /\ is_quote c = false.
Proof.
  destruct c as [[] [] [] [] [] [] [] []]; intros H;
    try discriminate H; repeat split; reflexivity.
Qed.

Lemma numeric_value_ok s : all_chars is_numeric s = true -> value_ok s = true.
Proof.
  apply all_chars_weaken. intros c Hc.
  destruct (numeric_plain c Hc) as (-> & -> & _). reflexivity.
Qed.

Lemma render_value_ok v : value_ok (render_value v) = true.
Proof.
  destruct v as [x|z|[|]]; simpl; try reflexivity.
  - apply numeric_value_ok, fmt_g_numeric.
  - apply numeric_value_ok, decimal_numeric.
Qed.

Lemma value_ok_no_newline v :
  value_ok v = true -> all_chars (fun c => negb (is_newline c)) v = true.
Proof.
  apply all_chars_weaken. intros c. rewrite andb_true_iff. tauto.
Qed.

Lemma key_ok_no_newline k :
  key_ok k = true -> all_chars (fun c => negb (is_newline c)) k = true.
Proof.
  apply all_chars_weaken. intros c. rewrite andb_true_iff. tauto.
Qed.

Lemma lines_line l rest :
  all_chars (fun c => negb (is_newline c)) l = true ->
  lines (l ++ String newline rest) = l :: lines rest.
Proof.
  induction l as [|c l IH]; simpl; intros H.
  - reflexivity.
  - apply andb_true_iff in H. destruct H as [Hc Hl].
    apply negb_true_iff in Hc. rewrite Hc, (IH Hl). reflexivity.
Qed.

Lemma until_quote_key k rest :
  key_ok k = true -> until_quote (k ++ String quote rest) = Some (k, rest).
Proof.
  induction k as [|c k IH]; simpl; intros H.
  - reflexivity.
  - apply andb_true_iff in H. destruct H as [Hc Hk].
    apply andb_true_iff in Hc. destruct Hc as [Hq _].
    apply negb_true_iff in Hq. rewrite Hq, (IH Hk). reflexivity.
Qed.

Lemma strip_comma_after v : strip_comma (v ++ ",") = v.
Proof.
  induction v as [|c v IH]; [reflexivity|].
  change (strip_comma (String c (v ++ ",")) = String c v).
  cbn [strip_comma]. fold strip_comma. rewrite IH.
  destruct v; reflexivity.
Qed.

Lemma strip_comma_plain v : value_ok v = true -> strip_comma v = v.
Proof.
  induction v as [|c v IH]; [reflexivity|].
  intros H. simpl in H. apply andb_true_iff in H. destruct H as [Hc Hv].
  apply andb_true_iff in Hc. destruct Hc as [Hc _].
  apply negb_true_iff in Hc.
  cbn [strip_comma]. fold strip_comma. rewrite (IH Hv).
  destruct v; [now rewrite Hc | reflexivity].
Qed.

Lemma member_of_line_text k v comma :
  key_ok k = true -> value_ok v = true ->
  member_of_line (member_line_text k v comma) = Some (k, v).
Proof.
  intros Hk Hv. unfold member_line_text. simpl.
  rewrite (until_quote_key k _ Hk).
  destruct comma.
  - now rewrite strip_comma_after.
  - now rewrite append_nil_r, strip_comma_plain.
Qed.

Lemma member_line_no_newline k v comma :
  key_ok k = true -> value_ok v = true ->
  all_chars (fun c => negb (is_newline c)) (member_line_text k v comma) = true.
Proof.
  intros Hk Hv. unfold member_line_text. simpl.
  rewrite all_chars_app, (key_ok_no_newline _ Hk). simpl.
  rewrite all_chars_app, (value_ok_no_newline _ Hv).
  now destruct comma.
Qed.

Lemma render_members_cons k v rest :
  render_members ((k, v) :: rest) =
  member_line_text k v (match rest with [] => false | _ => true end)
  ++ String newline (render_members rest).
Proof.
  unfold member_line_text. simpl.
  rewrite !append_assoc. simpl. rewrite !append_assoc.
  destruct rest; reflexivity.
Qed.

Lemma members_of_rendered_members ms tail :
  members_ok ms ->
  members_of_lines (lines (render_members ms ++ tail)) =
  (ms ++ members_of_lines (lines tail))%list.
Proof.
  induction 1 as [|[k v] rest [Hk Hv] Hrest IH]; [reflexivity|].
  rewrite render_members_cons, append_assoc.
  change (String newline (render_members rest) ++ tail)
    with (String newline (render_members rest ++ tail)).
  rewrite lines_line by now apply member_line_no_newline.
  cbn [members_of_lines].
  rewrite member_of_line_text by assumption.
  rewrite IH. reflexivity.
Qed.

(** Reading a rendered object back gives its members, in order. *)
Lemma members_of_render_object ms :
  members_ok ms -> members_of_text (render_object ms) = ms.
Proof.
  intros H. unfold members_of_text, render_object.
  change ("{" ++ String newline (render_members ms) ++ "}" ++ String newline "")
    with (String "{" (String newline (render_members ms ++ "}" ++ String newline ""))).
  change (lines (String "{" (String newline (render_members ms ++ "}" ++ String newline ""))))
    with ("{" :: lines (render_members ms ++ "}" ++ String newline "")).
  cbn [members_of_lines]. change (member_of_line "{") with (@None (string * string)).
  rewrite members_of_rendered_members by assumption.
  simpl. apply List.app_nil_r.
Qed.

Lemma rendered_ok ms :
  Forall (fun m => key_ok (fst m) = true) ms -> members_ok (rendered ms).
Proof.
  induction 1 as [|m ms Hm Hms IH]; constructor; [|exact IH].
  split; [exact Hm | apply render_value_ok].
Qed.

Lemma report_members_ok perf health :
  members_ok (rendered (perf_members perf ++ health_members health)%list).
Proof.
  apply rendered_ok.
  destruct perf, health; repeat constructor.
Qed.

Lemma members_of_render perf health :
  members_of_text (render perf health) =
  (rendered (perf_members perf) ++ rendered (health_members health))%list.
Proof.
  unfold render. rewrite members_of_render_object by apply report_members_ok.
  unfold rendered. apply List.map_app.
Qed.

End Reading.

(** ** Runs of [main] *)

Section Runs.

Context {Device : Type}.

Import CString Printf CInt Rendering Text.

Lemma prints_are_prints {R} (p : prog Device R) e :
  In e (prints p) -> exists f fmt args, e = ev_print f fmt args.
Proof.
  induction p as [r|c k IH|f fmt args k IH]; simpl; try tauto.
  intros [<-|H]; eauto.
Qed.

Lemma in_queried_trace id ids dev perf health (e : event Device) :
  In e ([ev_scan (Value (id :: ids)); ev_create id (Value dev);
         ev_performance dev perf; ev_health dev health]
        ++ prints (report perf health)) ->
  e = ev_scan (Value (id :: ids)) \/ e = ev_create id (Value dev) \/
  e = ev_performance dev perf \/ e = ev_health dev health \/
  exists f fmt args, e = ev_print f fmt args.
Proof.
  intros H. apply in_app_or in H. destruct H as [H|H].
  - cbn [In] in H. intuition auto.
  - right. right. right. right. now apply prints_are_prints in H.
Qed.


Lemma opened_prints {R} (p : prog Device R) : opened (prints p) = [].
Proof. induction p; simpl; auto. Qed.

Lemma queried_prints {R} (p : prog Device R) : queried (prints p) = [].
Proof. induction p; simpl; auto. Qed.

End Runs.

Ltac by_shape h w :=
unfold exit_code, stdout_of, stderr_of, trace_of in *;
destruct (exec_shape h w)
  as [scan0 Hscan Hr | id0 ids0 status0 Hr
     | id0 ids0 dev0 perf0 health0 Hr];
rewrite Hr in *; cbn [fst snd out err trace] in *.

Ltac by_shape' h w :=
unfold exit_code, stdout_of, stderr_of, trace_of in *;
destruct (exec_shape h w)
  as [scan1 Hscan' Hr' | id1 ids1 status1 Hr'
     | id1 ids1 dev1 perf1 health1 Hr'];
rewrite Hr' in *; cbn [fst snd out err trace] in *.

Ltac in_trace H :=
first
  [ apply in_queried_trace in H;
    destruct H as [H|[H|[H|[H|(? & ? & ? & H)]]]]
  | cbn [In] in H; repeat (destruct H as [H|H]) ];
try discriminate H; try contradiction.

Section Fatal.

Context {Device W : Type}.
Implicit Types (h : sdk Device W) (w : W).

Import CString Printf CInt Rendering Text.

Lemma count_char_app p a b :
  count_char p (a ++ b) = (count_char p a + count_char p b)%nat.
Proof.
  induction a as [|c a IH]; simpl; [reflexivity|]. rewrite IH. lia.
Qed.

Lemma count_none p s :
  all_chars (fun c => negb (p c)) s = true -> count_char p s = 0%nat.
Proof.
  induction s as [|c s IH]; simpl; [reflexivity|].
  rewrite andb_true_iff, negb_true_iff. intros [-> Hs]. now rewrite IH.
Qed.

Lemma ends_with_app suffix a : ends_with suffix (a ++ suffix) = true.
Proof.
  induction a as [|c a IH].
  - destruct suffix; simpl; [reflexivity|]. now rewrite Ascii.eqb_refl, String.eqb_refl.
  - change (ends_with suffix (String c (a ++ suffix)) = true).
    destruct suffix; cbn [ends_with]; rewrite IH; apply orb_true_r.
Qed.

Lemma starts_with_app prefix s : starts_with prefix (prefix ++ s) = true.
Proof.
  induction prefix as [|c p IH]; simpl; [reflexivity|].
  now rewrite Ascii.eqb_refl.
Qed.

Lemma contains_app needle a b : contains needle (a ++ needle ++ b) = true.
Proof.
  induction a as [|c a IH].
  - change (contains needle (needle ++ b) = true).
    pose proof (starts_with_app needle b) as Hs.
    destruct (needle ++ b); cbn [contains]; now rewrite Hs.
  - change (contains needle (String c (a ++ needle ++ b)) = true).
    cbn [contains]. rewrite IH. apply orb_true_r.
Qed.

Lemma decimal_no_newline z : count_char is_newline (decimal z) = 0%nat.
Proof.
  apply count_none. eapply all_chars_weaken; [|apply decimal_numeric].
  intros c Hc. now destruct (numeric_plain c Hc) as (-> & _).
Qed.

End Fatal.

(** ** Six significant digits *)

Section SixDigits.

Import Printf.

Lemma pow10_pos u : 0 <= u -> 0 < 10 ^ u.
Proof. intros H. apply Z.pow_pos_nonneg; lia. Qed.

Lemma pow10_add u v : 0 <= u -> 0 <= v -> 10 ^ (u + v) = 10 ^ u * 10 ^ v.
Proof. intros Hu Hv. now apply Z.pow_add_r. Qed.

Lemma pow10_succ u : 0 <= u -> 10 ^ (u + 1) = 10 * 10 ^ u.
Proof. intros Hu. rewrite pow10_add by lia. change (10 ^ 1) with 10. lia. Qed.

Lemma ndigits_fuel_spec fuel n :
  0 < n < 10 * 2 ^ Z.of_nat fuel ->
  1 <= ndigits_fuel fuel n /\
  10 ^ (ndigits_fuel fuel n - 1) <= n < 10 ^ ndigits_fuel fuel n.
Proof.
  revert n. induction fuel as [|fuel IH]; intros n Hn.
  - change (2 ^ Z.of_nat 0) with 1 in Hn. simpl.
    change (10 ^ (1 - 1)) with 1. change (10 ^ 1) with 10. lia.
  - cbn [ndigits_fuel]. destruct (Z.ltb_spec n 10) as [Hlt|Hge].
    + change (10 ^ (1 - 1)) with 1. change (10 ^ 1) with 10. lia.
    + pose proof (Z.div_mod n 10 ltac:(lia)) as Ediv.
      pose proof (Z.mod_pos_bound n 10 ltac:(lia)) as Hmod.
      assert (H2 : 2 ^ Z.of_nat (S fuel) = 2 * 2 ^ Z.of_nat fuel).
      { rewrite Nat2Z.inj_succ. apply Z.pow_succ_r. lia. }
      assert (Hq : 0 < n / 10 < 10 * 2 ^ Z.of_nat fuel).
      { rewrite H2 in Hn.
        pose proof (Z.pow_pos_nonneg 2 (Z.of_nat fuel)). lia. }
      destruct (IH _ Hq) as (Hk & Hlo & Hhi).
      set (k := ndigits_fuel fuel (n / 10)) in *.
      split; [lia|].
      replace (1 + k - 1) with ((k - 1) + 1) by lia.
      replace (1 + k) with (k + 1) by lia.
      rewrite !pow10_succ by lia. lia.
Qed.

Lemma ndigits_spec n :
  0 < n -> 1 <= ndigits n /\ 10 ^ (ndigits n - 1) <= n < 10 ^ ndigits n.
Proof.
  intros Hn. apply ndigits_fuel_spec.
  rewrite Z2Nat.id by apply Z.log2_nonneg.
  pose proof (Z.log2_spec n Hn) as [_ Hhi].
  rewrite Z.pow_succ_r in Hhi by apply Z.log2_nonneg.
  pose proof (Z.pow_pos_nonneg 2 (Z.log2 n)). pose proof (Z.log2_nonneg n).
  lia.
Qed.

(** [pow10_le] between powers: from [10^a <= num] and [den < 10^(b+1)]
    to [10^(a-b-1) <= num / den]. *)
Lemma pow10_le_lower a b num den :
  0 <= a -> 0 <= b -> 10 ^ a <= num -> 0 < den < 10 ^ (b + 1) ->
  pow10_le (a - b - 1) num den = true.
Proof.
  intros Ha Hb Hnum Hden. unfold pow10_le.
  destruct (Z.leb_spec 0 (a - b - 1)) as [Hx|Hx]; apply Z.leb_le.
  - assert (E : 10 ^ a = 10 ^ (a - b - 1) * 10 ^ (b + 1)).
    { rewrite <- pow10_add by lia. f_equal; lia. }
    pose proof (pow10_pos (a - b - 1) Hx). nia.
  - assert (E : 10 ^ (b + 1) = 10 ^ a * 10 ^ (- (a - b - 1))).
    { rewrite <- pow10_add by lia. f_equal; lia. }
    pose proof (pow10_pos (- (a - b - 1))). nia.
Qed.

Lemma pow10_le_upper a b num den :
  0 <= a -> 0 <= b -> 0 < num < 10 ^ (a + 1) -> 10 ^ b <= den ->
  pow10_le (a - b + 1) num den = false.
Proof.
  intros Ha Hb Hnum Hden. unfold pow10_le.
  destruct (Z.leb_spec 0 (a - b + 1)) as [Hx|Hx]; apply Z.leb_gt.
  - assert (E : 10 ^ (a + 1) = 10 ^ (a - b + 1) * 10 ^ b).
    { rewrite <- pow10_add by lia. f_equal; lia. }
    pose proof (pow10_pos (a - b + 1) Hx). nia.
  - assert (E : 10 ^ b = 10 ^ (a + 1) * 10 ^ (- (a - b + 1))).
    { rewrite <- pow10_add by lia. f_equal; lia. }
    pose proof (pow10_pos (- (a - b + 1))). nia.
Qed.

(** The decimal exponent brackets the quotient. *)
Lemma decimal_exponent_spec num den :
  0 < num -> 0 < den ->
  pow10_le (decimal_exponent num den) num den = true /\
  pow10_le (decimal_exponent num den + 1) num den = false.
Proof.
  intros Hnum Hden. unfold decimal_exponent.
  destruct (ndigits_spec num Hnum) as (Ha & Hnlo & Hnhi).
  destruct (ndigits_spec den Hden) as (Hb & Hdlo & Hdhi).
  set (da := ndigits num) in *. set (db := ndigits den) in *.
  assert (Hup : pow10_le (da - db + 1) num den = false).
  { replace (da - db + 1) with ((da - 1) - (db - 1) + 1) by lia.
    apply pow10_le_upper; try lia.
    replace (da - 1 + 1) with da by lia. lia. }
  assert (Hlow : pow10_le (da - db - 1) num den = true).
  { replace (da - db - 1) with ((da - 1) - (db - 1) - 1) by lia.
    apply pow10_le_lower; try lia.
    replace (db - 1 + 1) with db by lia. lia. }
  destruct (pow10_le (da - db) num den) eqn:E.
  - now split.
  - split; [exact Hlow|]. now replace (da - db - 1 + 1) with (da - db) by lia.
Qed.

Lemma round_half_even_bounds n m lo hi :
  0 < m -> lo * m <= n < hi * m ->
  lo <= round_half_even n m <= hi.
Proof.
  intros Hm Hn. unfold round_half_even.
  pose proof (Z.div_mod n m ltac:(lia)) as E.
  pose proof (Z.mod_pos_bound n m Hm) as Hr.
  assert (Hq : lo <= n / m < hi) by nia.
  destruct (2 * (n mod m) <? m); [lia|].
  destruct (m <? 2 * (n mod m)); [lia|].
  destruct (Z.even (n / m)); lia.
Qed.

(** The six digits are six digits: the mantissa lies in [10^5, 10^6). *)
Lemma six_digits_range m e :
  100000 <= fst (six_digits m e) < 1000000.
Proof.
  unfold six_digits.
  set (num := if 0 <=? e then Z.pos m * 2 ^ e else Z.pos m).
  set (den := if 0 <=? e then 1 else 2 ^ (- e)).
  assert (Hnum : 0 < num).
  { unfold num. destruct (Z.leb_spec 0 e); [|lia].
    pose proof (Z.pow_pos_nonneg 2 e). lia. }
  assert (Hden : 0 < den).
  { unfold den. destruct (Z.leb_spec 0 e); [lia|].
    apply Z.pow_pos_nonneg; lia. }
  destruct (decimal_exponent_spec num den Hnum Hden) as [Hlo Hhi].
  set (x := decimal_exponent num den) in *. clearbody x.
  set (d := if 0 <=? 5 - x
            then round_half_even (num * 10 ^ (5 - x)) den
            else round_half_even num (den * 10 ^ (x - 5))).
  assert (Hd : 100000 <= d <= 1000000).
  { unfold d. unfold pow10_le in Hlo, Hhi.
    destruct (Z.leb_spec 0 (5 - x)) as [H5|H5].
    - apply round_half_even_bounds; [exact Hden|].
      destruct (Z.leb_spec 0 x) as [Hx|Hx].
      + apply Z.leb_le in Hlo.
        destruct (Z.leb_spec 0 (x + 1)); [|lia]. apply Z.leb_gt in Hhi.
        assert (E : 10 ^ 5 = 10 ^ x * 10 ^ (5 - x)).
        { rewrite <- pow10_add by lia. f_equal; lia. }
        rewrite pow10_succ in Hhi by lia.
        change (10 ^ 5) with 100000 in E.
        pose proof (pow10_pos x Hx). pose proof (pow10_pos (5 - x) H5). nia.
      + apply Z.leb_le in Hlo.
        assert (E : 10 ^ (5 - x) = 10 ^ 5 * 10 ^ (- x)).
        { rewrite <- pow10_add by lia. f_equal; lia. }
        change (10 ^ 5) with 100000 in E.
        pose proof (pow10_pos (- x)).
        split; [nia|].
        destruct (Z.leb_spec 0 (x + 1)) as [Hx1|Hx1].
        * assert (x = -1) by lia. subst x.
          change (10 ^ (-1 + 1)) with 1 in Hhi. apply Z.leb_gt in Hhi.
          change (- -1) with 1 in *. change (10 ^ 1) with 10 in *. nia.
        * apply Z.leb_gt in Hhi.
          assert (E' : 10 ^ (- x) = 10 * 10 ^ (- (x + 1))).
          { rewrite <- pow10_succ by lia. f_equal; lia. }
          pose proof (pow10_pos (- (x + 1))). nia.
    - pose proof (pow10_pos (x - 5)).
      apply round_half_even_bounds; [nia|].
      destruct (Z.leb_spec 0 x); [|lia]. apply Z.leb_le in Hlo.
      destruct (Z.leb_spec 0 (x + 1)); [|lia]. apply Z.leb_gt in Hhi.
      assert (E : 10 ^ x = 10 ^ 5 * 10 ^ (x - 5)).
      { rewrite <- pow10_add by lia. f_equal; lia. }
      change (10 ^ 5) with 100000 in E.
      rewrite pow10_succ in Hhi by lia. nia. }
  destruct (Z.eqb_spec d 1000000) as [E|E]; simpl; lia.
Qed.

End SixDigits.

(** ** The printed numerals are JSON numbers *)

Section JsonNumbers.

Import Printf Text Json.

Lemma digit_steps c :
  is_digit c = true ->
  num_step n_int c = Some n_int /\
  num_step n_point c = Some n_frac /\
  num_step n_frac c = Some n_frac /\
  num_step n_e c = Some n_exp /\
  num_step n_esign c = Some n_exp /\
  num_step n_exp c = Some n_exp.
Proof.
  destruct c as [[] [] [] [] [] [] [] []]; intros H;
    try discriminate H; repeat split; reflexivity.
Qed.

Lemma num_run_app n a b :
  num_run n (a ++ b) =
  match num_run n a with Some n' => num_run n' b | None => None end.
Proof.
  revert n. induction a as [|c a IH]; intros n; simpl; [reflexivity|].
  destruct (num_step n c); [apply IH | reflexivity].
Qed.

(** Digits keep the number in its integer part, its fraction or its
    exponent. *)
Lemma num_run_digits n s :
  n = n_int \/ n = n_frac \/ n = n_exp ->
  all_chars is_digit s = true -> num_run n s = Some n.
Proof.
  intros Hn. induction s as [|c s IH]; simpl; [reflexivity|].
  rewrite andb_true_iff. intros [Hc Hs].
  destruct (digit_steps c Hc) as (Hi & _ & Hf & _ & _ & He).
  destruct Hn as [-> | [-> | ->]];
    [rewrite Hi | rewrite Hf | rewrite He]; auto.
Qed.

(** After the point, the exponent mark or its sign, at least one digit. *)
Lemma num_run_digits1 n c s :
  n = n_point \/ n = n_e \/ n = n_esign ->
  all_chars is_digit (String c s) = true ->
  num_run n (String c s) =
  Some (match n with n_point => n_frac | _ => n_exp end).
Proof.
  intros Hn H. cbn [all_chars] in H. apply andb_true_iff in H.
  destruct H as [Hc Hs].
  destruct (digit_steps c Hc) as (_ & Hp & _ & He & Hs' & _).
  destruct Hn as [-> | [-> | ->]]; cbn [num_run].
  - rewrite Hp. apply num_run_digits; auto.
  - rewrite He. apply num_run_digits; auto.
  - rewrite Hs'. apply num_run_digits; auto.
Qed.

Lemma nonzero_digit_start c s :
  is_nonzero_digit c = true ->
  num_start (String c s) = num_run n_int s /\
  num_run n_minus (String c s) = num_run n_int s.
Proof.
  destruct c as [[] [] [] [] [] [] [] []]; intros H;
    try discriminate H; split; reflexivity.
Qed.

Lemma strip_zeros_digits s :
  all_chars is_digit s = true -> all_chars is_digit (strip_zeros s) = true.
Proof. apply strip_zeros_chars. Qed.

(** A fraction leaves the number where it was, or in its fraction. *)
Lemma fraction_run n t :
  n = n_int \/ n = n_zero ->
  all_chars is_digit t = true ->
  exists n', num_run n (fraction t) = Some n' /\
             (n' = n \/ n' = n_frac).
Proof.
  intros Hn Ht. unfold fraction.
  pose proof (strip_zeros_digits t Ht) as Hs.
  destruct (strip_zeros t) as [|c t'].
  - exists n. split; [reflexivity | now left].
  - exists n_frac. split; [|now right].
    change (num_run n (String "." (String c t')))
      with (match num_step n "." with
            | Some n' => num_run n' (String c t')
            | None => None
            end).
    assert (E : num_step n "." = Some n_point)
      by (destruct Hn as [->| ->]; reflexivity).
    rewrite E. now rewrite num_run_digits1 by auto.
Qed.

(** The first character of a positive decimal numeral is a non-zero
    digit. *)
Lemma pos_uint_shape p :
  exists c s,
    NilZero.string_of_uint (Pos.to_uint p) = String c s /\
    is_nonzero_digit c = true /\ all_chars is_digit s = true.
Proof.
  assert (Hnorm : Decimal.unorm (Pos.to_uint p) = Pos.to_uint p).
  { rewrite <- (Unsigned.to_of (Pos.to_uint p)), Unsigned.of_to.
    reflexivity. }
  pose proof (Unsigned.to_uint_nonzero p) as Hnz.
  destruct (Pos.to_uint p) as [|d|d|d|d|d|d|d|d|d|d] eqn:E;
    try (eexists; eexists; split; [reflexivity|];
         split; [reflexivity | apply uint_digits]).
  - discriminate Hnorm.
  - exfalso. rewrite DecimalFacts.unorm_D0 in Hnorm.
    unfold Decimal.unorm in Hnorm.
    destruct (Decimal.nzhead d) eqn:Ed;
      apply (DecimalFacts.nzhead_nonzero d d); congruence.
Qed.

Lemma decimal_nonneg_shape z :
  0 <= z ->
  decimal z = "0" \/
  exists c s, decimal z = String c s /\
              is_nonzero_digit c = true /\ all_chars is_digit s = true.
Proof.
  intros Hz. destruct z as [|p|p]; [now left | right | lia].
  apply pos_uint_shape.
Qed.

(** [%d] and [%lld] print JSON numbers. *)
Lemma decimal_is_number z :
  exists n, num_start (decimal z) = Some n /\ num_final n = true.
Proof.
  destruct z as [|p|p].
  - exists n_zero. split; reflexivity.
  - destruct (pos_uint_shape p) as (c & s & E & Hc & Hs).
    exists n_int. split; [|reflexivity].
    unfold decimal. simpl. rewrite E.
    destruct (nonzero_digit_start c s Hc) as [-> _].
    apply num_run_digits; auto.
  - destruct (pos_uint_shape p) as (c & s & E & Hc & Hs).
    exists n_int. split; [|reflexivity].
    unfold decimal. simpl. rewrite E.
    destruct (nonzero_digit_start c s Hc) as [_ ->].
    apply num_run_digits; auto.
Qed.

(** The exponent field takes a complete mantissa to a complete
    exponent. *)
Lemma exponent_run n x :
  n = n_int \/ n = n_zero \/ n = n_frac ->
  num_run n (exponent_field x) = Some n_exp.
Proof.
  intros Hn. unfold exponent_field.
  assert (Hd : exists c s,
             (if Z.abs x <? 10 then String "0" (decimal (Z.abs x))
              else decimal (Z.abs x)) = String c s /\
             all_chars is_digit (String c s) = true).
  { pose proof (decimal_nonneg_digits (Z.abs x) (Z.abs_nonneg x)) as Hdig.
    destruct (Z.abs x <? 10).
    - eexists; eexists; split; [reflexivity|]. exact Hdig.
    - destruct (decimal_nonneg_shape (Z.abs x) (Z.abs_nonneg x))
        as [E|(c & s & E & _ & _)]; rewrite E in *; eauto. }
  destruct Hd as (c & s & -> & Hcs).
  assert (He : num_step n "e" = Some n_e)
    by (destruct Hn as [-> | [-> | ->]]; reflexivity).
  destruct (x <? 0).
  - change (num_run n ("e-" ++ String c s))
      with (match num_step n "e" with
            | Some n' => num_run n' (String "-" (String c s))
            | None => None
            end).
    rewrite He.
    change (num_run n_e (String "-" (String c s)))
      with (num_run n_esign (String c s)).
    now rewrite num_run_digits1 by auto.
  - change (num_run n ("e+" ++ String c s))
      with (match num_step n "e" with
            | Some n' => num_run n' (String "+" (String c s))
            | None => None
            end).
    rewrite He.
    change (num_run n_e (String "+" (String c s)))
      with (num_run n_esign (String c s)).
    now rewrite num_run_digits1 by auto.
Qed.

Lemma digit_char_nonzero k :
  1 <= k <= 9 -> is_nonzero_digit (digit_char k) = true.
Proof.
  intros H.
  assert (Hk : k = 1 \/ k = 2 \/ k = 3 \/ k = 4 \/ k = 5 \/
               k = 6 \/ k = 7 \/ k = 8 \/ k = 9) by lia.
  repeat (destruct Hk as [-> | Hk]; [reflexivity|]). now subst.
Qed.

(** Six digits whose first is not zero. *)
Lemma fixed_digits_shape d :
  100000 <= d < 1000000 ->
  exists c s,
    fixed_digits 6 d = String c s /\
    is_nonzero_digit c = true /\ all_chars is_digit s = true.
Proof.
  intros Hd.
  pose proof (fixed_digits_digits 6 d) as Hall.
  cbn [fixed_digits append] in *.
  eexists; eexists. split; [reflexivity|]. split.
  - apply digit_char_nonzero. Z.div_mod_to_equations. lia.
  - cbn [all_chars] in Hall. apply andb_true_iff in Hall. apply Hall.
Qed.

Lemma take_succ_digits k c s :
  take (S k) (String c s) = String c (take k s).
Proof. reflexivity. Qed.

(** The mantissa and exponent that [%g] prints for a finite non-zero
    value make a JSON number, with or without a minus sign before it. *)
Lemma fmt_g_magnitude_is_number m e :
  exists n,
    num_final n = true /\
    num_start (fmt_g_magnitude m e) = Some n /\
    num_run n_minus (fmt_g_magnitude m e) = Some n.
Proof.
  unfold fmt_g_magnitude.
  pose proof (six_digits_range m e) as Hr.
  destruct (six_digits m e) as [d x]. cbn [fst] in Hr.
  destruct (fixed_digits_shape d Hr) as (c & s & -> & Hc & Hs).
  destruct (nonzero_digit_start c "" Hc) as [_ Hstep].
  destruct ((-4 <=? x) && (x <? 6)) eqn:Hstyle.
  - destruct (Z.leb_spec 0 x) as [Hx|Hx].
    + replace (Z.to_nat (x + 1)) with (S (Z.to_nat x)) by lia.
      cbn [take drop].
      destruct (fraction_run n_int (drop (Z.to_nat x) s)
                  (or_introl eq_refl) (drop_chars _ _ _ Hs))
        as (n & Hn & Hfin).
      exists n. split; [destruct Hfin as [->| ->]; reflexivity|].
      change (String c (take (Z.to_nat x) s) ++ fraction (drop (Z.to_nat x) s))
        with (String c (take (Z.to_nat x) s ++ fraction (drop (Z.to_nat x) s))).
      destruct (nonzero_digit_start c
                  (take (Z.to_nat x) s ++ fraction (drop (Z.to_nat x) s)) Hc)
        as [-> ->].
      rewrite num_run_app, (num_run_digits n_int) by
        (auto using take_chars).
      now split.
    + assert (Hz : all_chars is_digit
                     (zeros (Z.to_nat (- x - 1)) ++ String c s) = true).
      { rewrite all_chars_app, zeros_digits. cbn [all_chars andb].
        apply andb_true_iff. split; [|exact Hs].
        unfold is_nonzero_digit in Hc. now apply andb_true_iff in Hc. }
      destruct (fraction_run n_zero _ (or_intror eq_refl) Hz)
        as (n & Hn & Hfin).
      exists n. split; [destruct Hfin as [->| ->]; reflexivity|].
      cbn [append]. cbn [num_start num_run].
      change (num_step n_minus "0") with (Some n_zero).
      change (Ascii.eqb "0" "-") with false.
      change (Ascii.eqb "0" "0") with true. cbn iota.
      now split.
  - cbn [take drop].
    destruct (fraction_run n_int s (or_introl eq_refl) Hs)
      as (n & Hn & Hfin).
    exists n_exp. split; [reflexivity|].
    change (String c "" ++ fraction s ++ exponent_field x)
      with (String c (fraction s ++ exponent_field x)).
    destruct (nonzero_digit_start c (fraction s ++ exponent_field x) Hc)
      as [-> ->].
    rewrite num_run_app, Hn.
    rewrite exponent_run by (destruct Hfin as [->| ->]; auto).
    now split.
Qed.

(** [%g] prints a JSON number for every finite value. *)
Lemma fmt_g_is_number x :
  is_finite x = true ->
  exists n, num_start (fmt_g x) = Some n /\ num_final n = true.
Proof.
  destruct x as [s|s| |s m e]; intros H; try discriminate H.
  - exists n_zero. now destruct s.
  - destruct (fmt_g_magnitude_is_number m e) as (n & Hfin & Hstart & Hminus).
    exists n. split; [|exact Hfin].
    destruct s; cbn [fmt_g sign_prefix append]; [|exact Hstart].
    exact Hminus.
Qed.

End JsonNumbers.

(** ** The report is a JSON object *)

Section JsonObject.

Import Printf Rendering Text Json.

Lemma run_app cfg a b :
  run cfg (a ++ b) =
  match run cfg a with Some cfg' => run cfg' b | None => None end.
Proof.
  revert cfg. induction a as [|c a IH]; intros cfg; simpl; [reflexivity|].
  destruct (step cfg c); [apply IH | reflexivity].
Qed.

Lemma run_number n stk s n' :
  num_run n s = Some n' ->
  run (m_number n, stk) s = Some (m_number n', stk).
Proof.
  revert n. induction s as [|c s IH]; intros n; simpl.
  - now intros [= ->].
  - destruct (num_step n c) as [n1|]; [apply IH | discriminate].
Qed.

Lemma digit_begins_number c stk :
  is_digit c = true ->
  step (m_value, stk) c =
  Some (m_number (if Ascii.eqb c "0" then n_zero else n_int), stk).
Proof.
  destruct c as [[] [] [] [] [] [] [] []]; intros H;
    try discriminate H; reflexivity.
Qed.

(** A number is read from its first character to its last. *)
Lemma run_value_number stk s n :
  num_start s = Some n -> run (m_value, stk) s = Some (m_number n, stk).
Proof.
  destruct s as [|c s]; [discriminate|]. unfold num_start.
  destruct (Ascii.eqb_spec c "-") as [->|Hm].
  - intros H. now apply run_number.
  - destruct (Ascii.eqb_spec c "0") as [->|Hz].
    + intros H. now apply run_number.
    + destruct (is_digit c) eqn:Hd; [|discriminate].
      intros H. cbn [run]. rewrite (digit_begins_number c stk Hd).
      destruct (Ascii.eqb_spec c "0"); [contradiction|].
      now apply run_number.
Qed.

Lemma number_is_value v n :
  num_start v = Some n -> num_final n = true -> value_token v.
Proof.
  intros Hs Hf stk. exists (m_number n). split; [|exact Hf].
  now apply run_value_number.
Qed.

Lemma render_value_is_value v :
  match v with j_float x => is_finite x | _ => true end = true ->
  value_token (render_value v).
Proof.
  destruct v as [x|z|[|]]; intros H; cbn [render_value].
  - destruct (fmt_g_is_number x H) as (n & Hs & Hf).
    exact (number_is_value _ _ Hs Hf).
  - destruct (decimal_is_number z) as (n & Hs & Hf).
    exact (number_is_value _ _ Hs Hf).
  - intros stk. exists m_after. split; reflexivity.
  - intros stk. exists m_after. split; reflexivity.
Qed.

(** After a complete value, a comma, a newline or a closing brace is
    read as what follows a value. *)
Lemma ended_step m stk c :
  value_ended m = true ->
  c = "," % char \/ c = newline \/ c = "}" % char ->
  step (m, stk) c = after_value c stk.
Proof.
  intros Hm Hc. destruct m; try discriminate Hm; [reflexivity|].
  destruct n; try discriminate Hm;
    destruct Hc as [-> | [-> | ->]]; reflexivity.
Qed.

Lemma plain_step key stk c :
  is_plain c = true ->
  step (m_string key, stk) c = Some (m_string key, stk).
Proof.
  unfold is_plain. rewrite !andb_true_iff, !negb_true_iff.
  intros [[Hq Hb] Hc]. cbn [step]. now rewrite Hq, Hb, Hc.
Qed.

(** A key of plain characters is read up to its closing quote. *)
Lemma run_key stk k rest :
  all_chars is_plain k = true ->
  run (m_string true, stk) (k ++ String quote rest) = run (m_colon, stk) rest.
Proof.
  induction k as [|c k IH]; intros H.
  - reflexivity.
  - cbn [all_chars] in H. apply andb_true_iff in H. destruct H as [Hc Hk].
    change (String c k ++ String quote rest)
      with (String c (k ++ String quote rest)).
    cbn [run]. rewrite (plain_step true stk c Hc). now apply IH.
Qed.

(** The start of a member line, from the place where a key is expected
    to the place of the value. *)
Lemma run_member_key m0 stk k rest :
  m0 = m_object_first \/ m0 = m_key ->
  all_chars is_plain k = true ->
  run (m0, in_object :: stk)
      ("  " ++ String quote k ++ String quote ": " ++ rest) =
  run (m_value, in_object :: stk) rest.
Proof.
  intros Hm0 Hk.
  change ("  " ++ String quote k ++ String quote ": " ++ rest)
    with (String " " (String " " (String quote
            (k ++ String quote (String ":" (String " " rest)))))).
  assert (E : run (m0, in_object :: stk)
                (String " " (String " " (String quote
                   (k ++ String quote (String ":" (String " " rest))))))
              = run (m_string true, in_object :: stk)
                  (k ++ String quote (String ":" (String " " rest))))
    by (destruct Hm0 as [-> | ->]; reflexivity).
  rewrite E, (run_key _ k _ Hk). reflexivity.
Qed.

(** One member line, from the place where a key is expected to the end of
    its value. *)
Lemma run_member m0 stk k v rest :
  m0 = m_object_first \/ m0 = m_key ->
  all_chars is_plain k = true -> value_token v ->
  exists m,
    value_ended m = true /\
    run (m0, in_object :: stk)
        ("  " ++ String quote k ++ String quote ": " ++ v ++ rest) =
    run (m, in_object :: stk) rest.
Proof.
  intros Hm0 Hk Hv.
  destruct (Hv (in_object :: stk)) as (m & Hrun & Hend).
  exists m. split; [exact Hend|].
  rewrite (run_member_key m0 stk k (v ++ rest) Hm0 Hk).
  now rewrite run_app, Hrun.
Qed.

Lemma render_members_app_cons k v ms rest :
  render_members ((k, v) :: ms) ++ rest =
  "  " ++ String quote k ++ String quote ": " ++ v ++
  match ms with
  | [] => String newline rest
  | _ :: _ => String "," (String newline (render_members ms ++ rest))
  end.
Proof.
  cbn [render_members]. rewrite !append_assoc.
  change (("  " ++ String quote k) ++ String quote ": " ++ v ++
          match ms with
          | [] => String newline ""
          | _ :: _ => "," ++ String newline (render_members ms)
          end ++ rest)
    with ("  " ++ String quote k ++ String quote ": " ++ v ++
          (match ms with
           | [] => String newline ""
           | _ :: _ => "," ++ String newline (render_members ms)
           end ++ rest)).
  destruct ms; reflexivity.
Qed.

(** The member lines of an object, from its opening brace to the end of
    the last member's line. *)
Lemma run_members ms : forall m0 stk rest,
  ms <> [] -> members_json ms ->
  m0 = m_object_first \/ m0 = m_key ->
  run (m0, in_object :: stk) (render_members ms ++ rest) =
  run (m_after, in_object :: stk) rest.
Proof.
  induction ms as [|[k v] ms IH]; intros m0 stk rest Hne Hms Hm0;
    [contradiction|].
  inversion Hms as [|? ? [Hk Hv] Hms']; subst. cbn [fst snd] in *.
  rewrite render_members_app_cons.
  destruct ms as [|m' ms'].
  - destruct (run_member m0 stk k v (String newline rest) Hm0 Hk Hv)
      as (m & Hend & ->).
    cbn [run]. rewrite (ended_step m _ newline Hend) by auto.
    reflexivity.
  - destruct (run_member m0 stk k v
                (String "," (String newline
                   (render_members (m' :: ms') ++ rest))) Hm0 Hk Hv)
      as (m & Hend & ->).
    cbn [run]. rewrite (ended_step m _ "," Hend) by auto.
    change (after_value "," (in_object :: stk))
      with (Some (m_key, in_object :: stk)).
    change (step (m_key, in_object :: stk) newline)
      with (Some (m_key, in_object :: stk)).
    apply IH; [discriminate | exact Hms' | now right].
Qed.

(** An object of one or more members, rendered one member per line, is a
    JSON object on a line of its own. *)
Lemma render_object_is_json ms :
  ms <> [] -> members_json ms -> object_line (render_object ms) = true.
Proof.
  intros Hne Hms. unfold object_line, render_object.
  apply andb_true_iff. split; [apply andb_true_iff; split|].
  - reflexivity.
  - rewrite <- (append_assoc "{" (String newline (render_members ms))
                  ("}" ++ String newline "")).
    apply ends_with_app.
  - unfold accepts.
    change ("{" ++ String newline (render_members ms) ++ "}" ++ String newline "")
      with (String "{" (String newline
              (render_members ms ++ "}" ++ String newline ""))).
    change (run (m_value, [])
              (String "{" (String newline
                 (render_members ms ++ "}" ++ String newline ""))))
      with (run (m_object_first, [in_object])
              (render_members ms ++ "}" ++ String newline "")).
    rewrite run_members by auto.
    reflexivity.
Qed.

Lemma rendered_json ms :
  Forall (fun m => all_chars is_plain (fst m) = true) ms ->
  all_finite ms = true ->
  members_json (rendered ms).
Proof.
  induction 1 as [|m ms Hk Hms IH]; intros Hf; constructor.
  - cbn [all_finite forallb] in Hf. apply andb_true_iff in Hf.
    split; [exact Hk|]. apply render_value_is_value.
    destruct (snd m); apply Hf.
  - apply IH. cbn [all_finite forallb] in Hf.
    apply andb_true_iff in Hf. apply Hf.
Qed.

(** An infinity or a NaN, as [%g] prints it, is not the start of any
    JSON value. *)
Lemma bad_value_rejected x stk rest :
  is_finite x = false -> run (m_value, stk) (fmt_g x ++ rest) = None.
Proof.
  destruct x as [s|[|]| |s m e]; intros H; try discriminate H; reflexivity.
Qed.

(** With a member that is not finite, the member lines are not read to
    their end. *)
Lemma run_members_bad (ms : list (string * jvalue)) : forall m0 stk rest,
  Forall (fun m => all_chars is_plain (fst m) = true) ms ->
  all_finite ms = false ->
  m0 = m_object_first \/ m0 = m_key ->
  run (m0, in_object :: stk) (render_members (rendered ms) ++ rest) = None.
Proof.
  induction ms as [|[k v] ms IH]; intros m0 stk rest Hks Hf Hm0;
    [discriminate Hf|].
  inversion Hks as [|? ? Hk Hks']; subst. cbn [fst] in Hk.
  cbn [all_finite forallb snd] in Hf.
  change (rendered ((k, v) :: ms)) with ((k, render_value v) :: rendered ms).
  rewrite render_members_app_cons.
  destruct (finite_value v) eqn:Hv.
  - cbn [andb] in Hf.
    assert (Htok : value_token (render_value v))
      by (apply render_value_is_value; destruct v; exact Hv).
    destruct ms as [|m' ms']; [discriminate Hf|].
    change (rendered (m' :: ms'))
      with ((fst m', render_value (snd m')) :: rendered ms').
    cbn iota.
    change ((fst m', render_value (snd m')) :: rendered ms')
      with (rendered (m' :: ms')).
    destruct (run_member m0 stk k (render_value v)
                (String "," (String newline
                   (render_members (rendered (m' :: ms')) ++ rest)))
                Hm0 Hk Htok) as (m & Hend & ->).
    cbn [run]. rewrite (ended_step m _ "," Hend) by auto.
    change (after_value "," (in_object :: stk))
      with (Some (m_key, in_object :: stk)).
    change (step (m_key, in_object :: stk) newline)
      with (Some (m_key, in_object :: stk)).
    apply IH; [exact Hks' | exact Hf | now right].
  - destruct v as [x|z|b]; try discriminate Hv.
    rewrite (run_member_key m0 stk k _ Hm0 Hk).
    cbn [render_value].
    destruct (rendered ms); now apply bad_value_rejected.
Qed.

(** An object of one or more members with plain keys is a JSON object on
    a line of its own exactly when all its members are finite. *)
Lemma render_object_json_iff (ms : list (string * jvalue)) :
  ms <> [] ->
  Forall (fun m => all_chars is_plain (fst m) = true) ms ->
  object_line (render_object (rendered ms)) = all_finite ms.
Proof.
  intros Hne Hks. destruct (all_finite ms) eqn:Hf.
  - apply render_object_is_json.
    + destruct ms; [contradiction | discriminate].
    + now apply rendered_json.
  - unfold object_line, accepts, render_object.
    change ("{" ++ String newline (render_members (rendered ms)) ++ "}"
            ++ String newline "")
      with (String "{" (String newline
              (render_members (rendered ms) ++ "}" ++ String newline ""))).
    change (run (m_value, [])
              (String "{" (String newline
                 (render_members (rendered ms) ++ "}" ++ String newline ""))))
      with (run (m_object_first, [in_object])
              (render_members (rendered ms) ++ "}" ++ String newline "")).
    rewrite run_members_bad by auto.
    apply andb_false_r.
Qed.

Lemma report_keys_plain perf health :
  Forall (fun m : string * jvalue => all_chars is_plain (fst m) = true)
         (perf_members perf ++ health_members health)%list.
Proof. destruct perf, health; repeat constructor. Qed.

Lemma report_all_finite perf health :
  all_finite (perf_members perf ++ health_members health)%list =
  finite_performance perf && finite_health health.
Proof.
  destruct perf as [p|s], health as [hs|s'];
    cbn [perf_members health_members app all_finite forallb snd
         finite_value finite_performance finite_health];
    rewrite ?andb_true_r, ?andb_true_l, ?andb_assoc; reflexivity.
Qed.

(** The rendering of two query results is a JSON object on a line of its
    own exactly when their floating fields are finite. *)
Lemma render_json_iff perf health :
  object_line (render perf health) =
  finite_performance perf && finite_health health.
Proof.
  unfold render. rewrite render_object_json_iff.
  - apply report_all_finite.
  - destruct perf; discriminate.
  - apply report_keys_plain.
Qed.

End JsonObject.

(** ** Numerals and messages read back *)

Section Numerals.

Import Printf CInt Text.

Lemma to_int_nonnil z : Z.to_int z <> Decimal.Pos Decimal.Nil /\
                        Z.to_int z <> Decimal.Neg Decimal.Nil.
Proof.
  destruct z as [|p|p]; simpl; split; try discriminate;
    intros [= H]; now apply (Unsigned.to_uint_nonnil p).
Qed.

(** A decimal numeral reads back as the integer it was printed from. *)
Lemma numeral_value_decimal z : numeral_value (decimal z) = Some z.
Proof.
  unfold numeral_value, decimal.
  destruct (to_int_nonnil z) as [Hp Hn].
  rewrite NilZero.isi by assumption. simpl. now rewrite DecimalZ.of_to.
Qed.

Lemma unsigned_numeral_decimal z :
  0 <= z -> unsigned_numeral (decimal z) = Some z.
Proof.
  intros Hz. unfold unsigned_numeral.
  now rewrite decimal_nonneg_digits, numeral_value_decimal.
Qed.

End Numerals.

Section ReadBack.

Import CString Printf CInt Rendering Text Json.

Lemma field_of_render key perf health :
  field key (render perf health) =
  value_of key
    (rendered (perf_members perf) ++ rendered (health_members health)).
Proof. unfold field. now rewrite members_of_render. Qed.

Lemma before_stop s c rest :
  all_chars (fun x => negb (Ascii.eqb x c)) s = true ->
  before c (s ++ String c rest) = s.
Proof.
  induction s as [|x s IH]; intros H.
  - cbn [append before]. now rewrite Ascii.eqb_refl.
  - cbn [all_chars] in H. apply andb_true_iff in H. destruct H as [Hx Hs].
    apply negb_true_iff in Hx.
    change (String x s ++ String c rest) with (String x (s ++ String c rest)).
    cbn [before]. now rewrite Hx, (IH Hs).
Qed.

Lemma numeric_not_paren c :
  is_numeric c = true -> negb (Ascii.eqb c ")") = true.
Proof.
  destruct c as [[] [] [] [] [] [] [] []]; intros H;
    try discriminate H; reflexivity.
Qed.

(** The status of the open-failure message reads back. *)
Lemma reported_status_of_message S :
  reported_status
    (lit "hailo_perf_query: failed to open device (status=" ++ decimal S
     ++ lit ")\n") = Some S.
Proof.
  unfold reported_status.
  change (after "status="
            (lit "hailo_perf_query: failed to open device (status="
             ++ decimal S ++ lit ")\n"))
    with (Some (decimal S ++ String ")" (String newline ""))).
  cbv beta iota. rewrite before_stop.
  - apply numeral_value_decimal.
  - eapply all_chars_weaken; [|apply decimal_numeric].
    apply numeric_not_paren.
Qed.

Lemma classify_number c :
  Ascii.eqb c "-" || is_digit c = true -> classify c = Some k_number.
Proof.
  destruct c as [[] [] [] [] [] [] [] []]; intros H;
    try discriminate H; reflexivity.
Qed.

Lemma num_start_first c s n :
  num_start (String c s) = Some n -> Ascii.eqb c "-" || is_digit c = true.
Proof.
  unfold num_start.
  destruct (Ascii.eqb_spec c "-") as [->|Hm]; [reflexivity|].
  destruct (Ascii.eqb_spec c "0") as [->|Hz]; [reflexivity|].
  destruct (is_digit c); [reflexivity | discriminate].
Qed.

(** A text that is read as a number to its end is a JSON number. *)
Lemma number_kind v n :
  num_start v = Some n -> num_final n = true -> kind_of v = Some k_number.
Proof.
  intros Hs Hf. unfold kind_of, accepts.
  rewrite (run_value_number [] v n Hs). cbn [final]. rewrite Hf.
  destruct v as [|c s]; [discriminate Hs|].
  apply classify_number. exact (num_start_first c s n Hs).
Qed.

Lemma decimal_kind z : kind_of (decimal z) = Some k_number.
Proof.
  destruct (decimal_is_number z) as (n & Hs & Hf).
  exact (number_kind _ _ Hs Hf).
Qed.

Lemma fmt_g_kind x :
  is_finite x = true -> kind_of (fmt_g x) = Some k_number.
Proof.
  intros H. destruct (fmt_g_is_number x H) as (n & Hs & Hf).
  exact (number_kind _ _ Hs Hf).
Qed.

(** A finite member is printed as a JSON value of its type. *)
Lemma kind_of_render_value v :
  finite_value v = true ->
  kind_of (render_value v) = Some (kind_of_type (type_of v)).
Proof.
  destruct v as [x|z|[|]]; intros H; cbn [render_value type_of kind_of_type].
  - now apply fmt_g_kind.
  - apply decimal_kind.
  - reflexivity.
  - reflexivity.
Qed.

Lemma kinds_of_rendered ms :
  all_finite ms = true ->
  map (fun m => (fst m, kind_of (snd m))) (rendered ms) =
  map (fun m => (fst m, Some (kind_of_type (type_of (snd m))))) ms.
Proof.
  induction ms as [|[k v] ms IH]; intros H; [reflexivity|].
  cbn [all_finite forallb snd] in H. apply andb_true_iff in H.
  destruct H as [Hv Hms].
  cbn [rendered map fst snd]. rewrite (kind_of_render_value v Hv).
  f_equal. apply IH. exact Hms.
Qed.

(** The kinds of the values of a report whose floating fields are
    finite. *)
Lemma kinds_of_render perf health :
  finite_performance perf = true -> finite_health health = true ->
  kinds_of_text (render perf health) =
  map (fun m => (fst m, Some (kind_of_type (type_of (snd m)))))
      (perf_members perf ++ health_members health).
Proof.
  intros Hp Hh. unfold kinds_of_text. rewrite members_of_render.
  assert (E : (rendered (perf_members perf)
               ++ rendered (health_members health))%list =
              rendered (perf_members perf ++ health_members health))
    by (unfold rendered; symmetry; apply List.map_app).
  rewrite E. apply kinds_of_rendered.
  now rewrite report_all_finite, Hp, Hh.
Qed.

End ReadBack.

(** ** The fatal paths *)

Section FatalPaths.

Context {Device W : Type}.
Implicit Types (h : sdk Device W) (w : W).

Import CString Printf CInt Rendering Text.

(** C5. When the scan returns the empty sequence, the process exits with
    code 1, writes nothing on standard output, writes the one line
    [hailo_perf_query: no devices found] on standard error, and its only
    SDK operation is the scan: no device is opened, no query issued. *)
Theorem no_devices_is_fatal h w :
  In (ev_scan (Value [])) (trace_of h w) ->
  exit_code h w = 1 /\
  stdout_of h w = "" /\
  stderr_of h w = lit "hailo_perf_query: no devices found\n" /\
  single_line (stderr_of h w) = true /\
  operations (trace_of h w) = [op_scan].
Proof.
  intros H. by_shape h w.
  - repeat split; reflexivity.
  - in_trace H.
  - in_trace H.
Qed.

(** C6. When opening the first device fails with status [S], the process
    exits with code 1, writes nothing on standard output, and writes one
    line on standard error, which holds [status=S] with [S] in decimal:
    the numeral between [status=] and the closing parenthesis denotes
    [S]. *)
Theorem open_failure_is_fatal h w id S :
  In (ev_create id (Unexpected S)) (trace_of h w) ->
  INT_MIN <= S <= INT_MAX ->
  exit_code h w = 1 /\
  stdout_of h w = "" /\
  stderr_of h w =
    lit "hailo_perf_query: failed to open device (status=" ++ decimal S
    ++ lit ")\n" /\
  single_line (stderr_of h w) = true /\
  contains ("status=" ++ decimal S) (stderr_of h w) = true /\
  reported_status (stderr_of h w) = Some S.
Proof.
  intros H HS. by_shape h w.
  - in_trace H.
  - in_trace H. injection H as _ HS0. subst status0.
    rewrite (to_int_id S HS).
    split; [reflexivity|]. split; [reflexivity|]. split; [reflexivity|].
    split; [|split].
    + unfold single_line. apply andb_true_iff. split.
      * rewrite !count_char_app, decimal_no_newline. reflexivity.
      * change (lit ")\n") with (")" ++ String newline "").
        rewrite <- !append_assoc. apply ends_with_app.
    + change (lit "hailo_perf_query: failed to open device (status=")
        with ("hailo_perf_query: failed to open device (" ++ "status=").
      rewrite !append_assoc.
      rewrite <- (append_assoc "status=").
      apply contains_app.
    + apply reported_status_of_message.
  - in_trace H.
Qed.

(** C7. When the scan returns a non-empty sequence, exactly one device is
    opened, by the first identifier of the sequence, and every query is
    issued on the handle that this one open returned. *)
Theorem only_the_first_device_is_used h w first others :
  In (ev_scan (Value (first :: others))) (trace_of h w) ->
  opened (trace_of h w) = [first] /\
  forall d, In d (queried (trace_of h w)) ->
            In (ev_create first (Value d)) (trace_of h w).
Proof.
  intros H. by_shape h w.
  - in_trace H. destruct Hscan as [->|[s ->]]; discriminate H.
  - in_trace H. injection H as H1 H2. subst id0 ids0. split; [reflexivity|].
    intros d [].
  - in_trace H. injection H as H1 H2. subst id0 ids0. split.
    + cbn [app opened]. now rewrite opened_prints.
    + intros d Hd. cbn [app queried] in Hd. rewrite queried_prints in Hd.
      cbn [In app]. destruct Hd as [<-|[<-|[]]]; auto.
Qed.

(** C10. When the scan itself fails, the process does what it does for an
    empty sequence: exit code 1, nothing on standard output, the line
    [hailo_perf_query: no devices found] on standard error, no further
    SDK operation; exit code and both streams are those of any run whose
    scan returned the empty sequence. *)
Theorem scan_error_is_no_devices h w status :
  In (ev_scan (Unexpected status)) (trace_of h w) ->
  exit_code h w = 1 /\
  stdout_of h w = "" /\
  stderr_of h w = lit "hailo_perf_query: no devices found\n" /\
  operations (trace_of h w) = [op_scan] /\
  forall (W' : Type) (h' : sdk Device W') (w' : W'),
    In (ev_scan (Value [])) (trace_of h' w') ->
    exit_code h' w' = exit_code h w /\
    stdout_of h' w' = stdout_of h w /\
    stderr_of h' w' = stderr_of h w.
Proof.
  intros H. by_shape h w.
  - do 4 (split; [reflexivity|]).
    intros W' h' w' H'. by_shape' h' w'.
    + repeat split; reflexivity.
    + in_trace H'.
    + in_trace H'.
  - in_trace H.
  - in_trace H.
Qed.

End FatalPaths.

(** ** The report *)


Section Report.

Context {Device : Type}.

Import CString Printf CInt Rendering Text Scenario.

(** C2. A device whose performance query returns 0.42, 1073741824,
    536870912, 0.10 and 5 and whose health query returns 55.5, 900 and 0
    (the floating values being the nearest ones of the binary32 or the
    binary64 format) makes the process print the ten-key object of
    section 6 with these values, [perf_ok] and [health_ok] both [true],
    and exit with code 0.  The [%g] conversion prints the value 0.10 as
    [0.1]. *)
Theorem p3_full_success {W : Type} (h : sdk Device W) (w : W)
  (f : float_format) (d1 d2 : Device) :
  In (ev_performance d1 (Value (p3_performance f))) (trace_of h w) ->
  In (ev_health d2 (Value (p3_health f))) (trace_of h w) ->
  stdout_of h w = p3_report /\ stderr_of h w = "" /\ exit_code h w = 0.
Proof.
  intros Hp Hh. by_shape h w.
  - in_trace Hp.
  - in_trace Hp.
  - in_trace Hp. in_trace Hh.
    injection Hp as _ Hp. injection Hh as _ Hh. subst perf0 health0.
    split; [|split; reflexivity].
    destruct f; vm_compute; reflexivity.
Qed.


(** C4. In each block the order of the keys depends on the branch: on
    success the data keys come first and the flag, [true], last; on
    failure the flag, [false], comes first and the [_error] member
    directly after it. *)
Theorem key_order_by_branch {W : Type} (h : sdk Device W) (w : W)
  (d1 d2 : Device) perf health :
  In (ev_performance d1 perf) (trace_of h w) ->
  In (ev_health d2 health) (trace_of h w) ->
  exists pm hm,
    members_of_text (stdout_of h w) = (pm ++ hm)%list /\
    match perf with
    | Value _ =>
        map fst pm =
          ["cpu_utilization"; "ram_size_total"; "ram_size_used";
           "nnc_utilization"; "dsp_utilization"; "perf_ok"] /\
        last pm ("", "") = ("perf_ok", "true")
    | Unexpected s =>
        pm = [("perf_ok", "false"); ("perf_error", decimal (to_int s))]
    end /\
    match health with
    | Value _ =>
        map fst hm =
          ["on_die_temperature"; "on_die_voltage"; "bist_failure_mask";
           "health_ok"] /\
        last hm ("", "") = ("health_ok", "true")
    | Unexpected s =>
        hm = [("health_ok", "false"); ("health_error", decimal (to_int s))]
    end.
Proof.
  intros Hp Hh. by_shape h w.
  - in_trace Hp.
  - in_trace Hp.
  - in_trace Hp. in_trace Hh.
    injection Hp as _ Hp. injection Hh as _ Hh. subst perf0 health0.
    exists (rendered (perf_members perf)), (rendered (health_members health)).
    split; [apply members_of_render|].
    destruct perf, health; repeat split; reflexivity.
Qed.

(** C8, as amended. A byte count that a [long long] holds (below [2^63])
    and a self-test mask that an [int] holds (below [2^31]) are printed
    as the non-negative decimal numeral of the field's value. *)
Theorem counts_in_range_render_unsigned {W : Type} (h : sdk Device W)
  (w : W) :
  (forall d p,
     In (ev_performance d (Value p)) (trace_of h w) ->
     (0 <= ram_size_total p <= LLONG_MAX ->
      renders_unsigned "ram_size_total" (ram_size_total p) (stdout_of h w))
     /\
     (0 <= ram_size_used p <= LLONG_MAX ->
      renders_unsigned "ram_size_used" (ram_size_used p) (stdout_of h w)))
  /\
  (forall d hs,
     In (ev_health d (Value hs)) (trace_of h w) ->
     0 <= bist_failure_mask hs <= INT_MAX ->
     renders_unsigned "bist_failure_mask" (bist_failure_mask hs)
       (stdout_of h w)).
Proof.
  split.
  - intros d p H. by_shape h w; in_trace H.
    injection H as _ H. subst perf0.
    split; intros Hb;
      (eexists; split; [rewrite field_of_render; reflexivity|]);
      rewrite to_long_long_id by (unfold LLONG_MAX in *; lia);
      apply unsigned_numeral_decimal; lia.
  - intros d hs H Hb. by_shape h w; in_trace H.
    injection H as _ H. subst health0.
    eexists. split.
    + rewrite field_of_render. destruct perf0; reflexivity.
    + rewrite to_int_id by (unfold INT_MIN, INT_MAX in *; lia).
      apply unsigned_numeral_decimal; lia.
Qed.

(** X10. Two runs whose performance queries agree on success or failure,
    and whose health queries do, issue the same [printf] formats in the
    same order, read with arguments of the same types, and the same keys
    in the same order are read back from the two texts, whatever the
    values are. *)
Theorem schema_is_determined_by_outcomes {W1 W2 : Type}
  (h1 : sdk Device W1) (w1 : W1) (h2 : sdk Device W2) (w2 : W2) :
  perf_status (trace_of h1 w1) = perf_status (trace_of h2 w2) ->
  health_status (trace_of h1 w1) = health_status (trace_of h2 w2) ->
  schema (trace_of h1 w1) = schema (trace_of h2 w2) /\
  keys_of_text (stdout_of h1 w1) = keys_of_text (stdout_of h2 w2).
Proof.
  intros Hp Hh. by_shape h1 w1; by_shape' h2 w2;
    try discriminate Hp; try (split; reflexivity).
  cbn [app perf_status health_status] in Hp, Hh.
  injection Hp as Hp. injection Hh as Hh.
  unfold keys_of_text. rewrite !members_of_render.
  destruct perf0, perf1; try discriminate Hp;
    destruct health0, health1; try discriminate Hh;
    split; reflexivity.
Qed.

End Report.

Section Examples.

Import CString Printf CInt Rendering Text Scenario.

(** C1. The device reports a CPU utilisation that is not a number: the
    process exits with code 0, and what it printed, with [nan] as the
    value of [cpu_utilization], is not a JSON text. *)
Theorem nan_report_is_not_json :
  In (ev_performance 0%nat (Value nan_performance)) (trace_of nan_device tt)
  /\ exit_code nan_device tt = 0
  /\ field "cpu_utilization" (stdout_of nan_device tt) = Some "nan"
  /\ Json.accepts (stdout_of nan_device tt) = false
  /\ Json.object_line (stdout_of nan_device tt) = false.
Proof. vm_compute. intuition auto. Qed.

(** C9. In two runs both queries succeed and the process exits with
    code 0, one device reporting a CPU utilisation of 0.42 and the other
    one that is not a number: the keys of the two reports are the same,
    but the first report is a JSON object whose [cpu_utilization] is a
    number, and the second is not a JSON object and its
    [cpu_utilization], [nan], is no JSON value of any type. *)
Theorem nan_changes_the_value_type :
  In (ev_performance 0%nat (Value (p3_performance binary32)))
     (trace_of (p3_device binary32) tt) /\
  In (ev_performance 0%nat (Value nan_performance))
     (trace_of nan_device tt) /\
  exit_code (p3_device binary32) tt = 0 /\
  exit_code nan_device tt = 0 /\
  perf_status (trace_of (p3_device binary32) tt) = Some true /\
  perf_status (trace_of nan_device tt) = Some true /\
  health_status (trace_of (p3_device binary32) tt) = Some true /\
  health_status (trace_of nan_device tt) = Some true /\
  keys_of_text (stdout_of (p3_device binary32) tt) =
    keys_of_text (stdout_of nan_device tt) /\
  Json.object_line (stdout_of (p3_device binary32) tt) = true /\
  Json.object_line (stdout_of nan_device tt) = false /\
  field "cpu_utilization" (stdout_of (p3_device binary32) tt) = Some "0.42" /\
  Json.kind_of "0.42" = Some Json.k_number /\
  field "cpu_utilization" (stdout_of nan_device tt) = Some "nan" /\
  Json.kind_of "nan" = None /\
  Json.kinds_of_text (stdout_of (p3_device binary32) tt) <>
    Json.kinds_of_text (stdout_of nan_device tt).
Proof.
  split; [vm_compute; auto|]. split; [vm_compute; auto|].
  do 13 (split; [vm_compute; reflexivity|]).
  vm_compute. discriminate.
Qed.

End Examples.

(** ** The theorems at concrete devices *)

Section Instances.

Import CString Printf CInt Rendering Text Scenario.

Lemma p3_full_success_witness :
  In (ev_performance 0%nat (Value (p3_performance binary32)))
     (trace_of (p3_device binary32) tt) /\
  In (ev_health 0%nat (Value (p3_health binary32)))
     (trace_of (p3_device binary32) tt) /\
  stdout_of (p3_device binary32) tt = p3_report /\
  stderr_of (p3_device binary32) tt = "" /\
  exit_code (p3_device binary32) tt = 0.
Proof.
  assert (Hp : In (ev_performance 0%nat (Value (p3_performance binary32)))
                  (trace_of (p3_device binary32) tt))
    by (vm_compute; auto).
  assert (Hh : In (ev_health 0%nat (Value (p3_health binary32)))
                  (trace_of (p3_device binary32) tt))
    by (vm_compute; auto 6).
  split; [exact Hp|]. split; [exact Hh|].
  exact (p3_full_success (p3_device binary32) tt binary32 0%nat 0%nat Hp Hh).
Defined.


Lemma key_order_by_branch_witness :
  In (ev_performance 1%nat (Unexpected 26))
     (trace_of (counting (p3_health binary32) 26) 0%nat) /\
  In (ev_health 1%nat (Value (p3_health binary32)))
     (trace_of (counting (p3_health binary32) 26) 0%nat) /\
  exists pm hm,
    members_of_text (stdout_of (counting (p3_health binary32) 26) 0%nat) =
      (pm ++ hm)%list /\
    pm = [("perf_ok", "false"); ("perf_error", decimal (to_int 26))] /\
    (map fst hm =
       ["on_die_temperature"; "on_die_voltage"; "bist_failure_mask";
        "health_ok"] /\
     last hm ("", "") = ("health_ok", "true")).
Proof.
  assert (Hp : In (ev_performance 1%nat (Unexpected 26))
                  (trace_of (counting (p3_health binary32) 26) 0%nat))
    by (vm_compute; auto).
  assert (Hh : In (ev_health 1%nat (Value (p3_health binary32)))
                  (trace_of (counting (p3_health binary32) 26) 0%nat))
    by (vm_compute; auto 6).
  split; [exact Hp|]. split; [exact Hh|].
  exact (key_order_by_branch (counting (p3_health binary32) 26) 0%nat
           1%nat 1%nat (Unexpected 26) (Value (p3_health binary32)) Hp Hh).
Defined.

Lemma no_devices_is_fatal_witness :
  In (ev_scan (Value [])) (trace_of no_device tt) /\
  exit_code no_device tt = 1 /\
  stdout_of no_device tt = "" /\
  stderr_of no_device tt = lit "hailo_perf_query: no devices found\n" /\
  single_line (stderr_of no_device tt) = true /\
  operations (trace_of no_device tt) = [op_scan].
Proof.
  assert (H : In (ev_scan (Value [])) (trace_of no_device tt))
    by (vm_compute; auto).
  split; [exact H|].
  exact (no_devices_is_fatal no_device tt H).
Defined.

Lemma open_failure_is_fatal_witness :
  In (ev_create "0001:01:00.0" (Unexpected 61))
     (trace_of (open_error 61) tt) /\
  INT_MIN <= 61 <= INT_MAX /\
  exit_code (open_error 61) tt = 1 /\
  stdout_of (open_error 61) tt = "" /\
  stderr_of (open_error 61) tt =
    lit "hailo_perf_query: failed to open device (status=" ++ decimal 61
    ++ lit ")\n" /\
  single_line (stderr_of (open_error 61) tt) = true /\
  contains ("status=" ++ decimal 61) (stderr_of (open_error 61) tt) = true /\
  reported_status (stderr_of (open_error 61) tt) = Some 61.
Proof.
  assert (H : In (ev_create "0001:01:00.0" (Unexpected 61))
                 (trace_of (open_error 61) tt))
    by (vm_compute; auto).
  assert (HS : INT_MIN <= 61 <= INT_MAX)
    by (unfold INT_MIN, INT_MAX; lia).
  split; [exact H|]. split; [exact HS|].
  exact (open_failure_is_fatal (open_error 61) tt "0001:01:00.0" 61 H HS).
Defined.

Lemma only_the_first_device_is_used_witness :
  In (ev_scan (Value ["0001:01:00.0"; "0002:01:00.0"]))
     (trace_of (counting (p3_health binary32) 26) 0%nat) /\
  opened (trace_of (counting (p3_health binary32) 26) 0%nat) =
    ["0001:01:00.0"] /\
  forall d,
    In d (queried (trace_of (counting (p3_health binary32) 26) 0%nat)) ->
    In (ev_create "0001:01:00.0" (Value d))
       (trace_of (counting (p3_health binary32) 26) 0%nat).
Proof.
  assert (H : In (ev_scan (Value ["0001:01:00.0"; "0002:01:00.0"]))
                 (trace_of (counting (p3_health binary32) 26) 0%nat))
    by (vm_compute; auto).
  split; [exact H|].
  exact (only_the_first_device_is_used
           (counting (p3_health binary32) 26) 0%nat
           "0001:01:00.0" ["0002:01:00.0"] H).
Defined.

(** C8. The device reports [2^63] bytes of memory and a self-test mask
    with bit 31 set, both within the ranges of section 3 of the
    specification; the two values are printed with a minus sign, not as
    the non-negative numerals of the fields' values. *)
Lemma large_counts_render_negative :
  perf_in_range large_performance /\
  health_in_range large_health /\
  In (ev_performance 0%nat (Value large_performance))
     (trace_of large_device tt) /\
  In (ev_health 0%nat (Value large_health)) (trace_of large_device tt) /\
  field "ram_size_total" (stdout_of large_device tt) =
    Some "-9223372036854775808" /\
  field "bist_failure_mask" (stdout_of large_device tt) =
    Some "-2147483648" /\
  ~ renders_unsigned "ram_size_total" (ram_size_total large_performance)
      (stdout_of large_device tt) /\
  ~ renders_unsigned "bist_failure_mask" (bist_failure_mask large_health)
      (stdout_of large_device tt).
Proof.
  assert (Ht : field "ram_size_total" (stdout_of large_device tt) =
               Some "-9223372036854775808") by (vm_compute; reflexivity).
  assert (Hm : field "bist_failure_mask" (stdout_of large_device tt) =
               Some "-2147483648") by (vm_compute; reflexivity).
  split. { unfold perf_in_range, UINT64_MAX, INT_MIN, INT_MAX. simpl. lia. }
  split. { unfold health_in_range, UINT32_MAX, INT_MIN, INT_MAX. simpl. lia. }
  split. { vm_compute. auto. }
  split. { vm_compute. auto 6. }
  split; [exact Ht|]. split; [exact Hm|].
  split; intros (n & Hf & Hn).
  - rewrite Ht in Hf. injection Hf as <-. vm_compute in Hn. discriminate Hn.
  - rewrite Hm in Hf. injection Hf as <-. vm_compute in Hn. discriminate Hn.
Qed.

Lemma counts_in_range_render_unsigned_witness :
  In (ev_performance 0%nat (Value (p3_performance binary32)))
     (trace_of (p3_device binary32) tt) /\
  In (ev_health 0%nat (Value (p3_health binary32)))
     (trace_of (p3_device binary32) tt) /\
  renders_unsigned "ram_size_total" 1073741824
    (stdout_of (p3_device binary32) tt) /\
  renders_unsigned "ram_size_used" 536870912
    (stdout_of (p3_device binary32) tt) /\
  renders_unsigned "bist_failure_mask" 0
    (stdout_of (p3_device binary32) tt).
Proof.
  assert (Hp : In (ev_performance 0%nat (Value (p3_performance binary32)))
                  (trace_of (p3_device binary32) tt))
    by (vm_compute; auto).
  assert (Hh : In (ev_health 0%nat (Value (p3_health binary32)))
                  (trace_of (p3_device binary32) tt))
    by (vm_compute; auto 6).
  split; [exact Hp|]. split; [exact Hh|].
  destruct (counts_in_range_render_unsigned (p3_device binary32) tt)
    as [Hperf Hhealth].
  destruct (Hperf _ _ Hp) as [Ht Hu].
  split; [apply Ht; unfold LLONG_MAX; simpl; lia|].
  split; [apply Hu; unfold LLONG_MAX; simpl; lia|].
  apply (Hhealth _ _ Hh). unfold INT_MAX. simpl. lia.
Defined.

Lemma schema_is_determined_by_outcomes_witness :
  perf_status (trace_of (p3_device binary32) tt) =
    perf_status (trace_of large_device tt) /\
  health_status (trace_of (p3_device binary32) tt) =
    health_status (trace_of large_device tt) /\
  schema (trace_of (p3_device binary32) tt) =
    schema (trace_of large_device tt) /\
  keys_of_text (stdout_of (p3_device binary32) tt) =
    keys_of_text (stdout_of large_device tt).
Proof.
  assert (Hp : perf_status (trace_of (p3_device binary32) tt) =
               perf_status (trace_of large_device tt))
    by (vm_compute; reflexivity).
  assert (Hh : health_status (trace_of (p3_device binary32) tt) =
               health_status (trace_of large_device tt))
    by (vm_compute; reflexivity).
  split; [exact Hp|]. split; [exact Hh|].
  exact (schema_is_determined_by_outcomes
           (p3_device binary32) tt large_device tt Hp Hh).
Defined.

Lemma scan_error_is_no_devices_witness :
  In (ev_scan (Unexpected 26)) (trace_of (scan_error 26) tt) /\
  exit_code (scan_error 26) tt = 1 /\
  stdout_of (scan_error 26) tt = "" /\
  stderr_of (scan_error 26) tt = lit "hailo_perf_query: no devices found\n" /\
  operations (trace_of (scan_error 26) tt) = [op_scan] /\
  forall (W' : Type) (h' : sdk nat W') (w' : W'),
    In (ev_scan (Value [])) (trace_of h' w') ->
    exit_code h' w' = exit_code (scan_error 26) tt /\
    stdout_of h' w' = stdout_of (scan_error 26) tt /\
    stderr_of h' w' = stderr_of (scan_error 26) tt.
Proof.
  assert (H : In (ev_scan (Unexpected 26)) (trace_of (scan_error 26) tt))
    by (vm_compute; auto).
  split; [exact H|].
  exact (scan_error_is_no_devices (scan_error 26) tt 26 H).
Defined.

End Instances.

(** ** Further properties of [main] *)

Section Further.

Context {Device : Type}.

Import CString Printf CInt Rendering Text.

(** X1. When both queries were issued, what the process printed is one
    JSON object on a line of its own exactly when every floating field
    of the successful results is finite; the exit code is 0 either
    way. *)
Theorem report_is_json_iff_finite {W : Type} (h : sdk Device W) (w : W)
  (d1 d2 : Device) perf health :
  In (ev_performance d1 perf) (trace_of h w) ->
  In (ev_health d2 health) (trace_of h w) ->
  Json.object_line (stdout_of h w) =
    finite_performance perf && finite_health health /\
  exit_code h w = 0.
Proof.
  intros Hp Hh. by_shape h w; in_trace Hp. in_trace Hh.
  injection Hp as _ Hp. injection Hh as _ Hh. subst perf0 health0.
  split; [apply render_json_iff | reflexivity].
Qed.

(** X2. When both queries were issued, standard output is exactly the
    rendering of the two results: an opening brace on its line, one
    member per line with two spaces of indentation and a comma after all
    but the last, a closing brace on its line; standard error is
    empty. *)
Theorem stdout_is_the_rendering {W : Type} (h : sdk Device W) (w : W)
  (d1 d2 : Device) perf health :
  In (ev_performance d1 perf) (trace_of h w) ->
  In (ev_health d2 health) (trace_of h w) ->
  stdout_of h w =
    render_object
      (rendered (perf_members perf ++ health_members health)%list) /\
  stderr_of h w = "".
Proof.
  intros Hp Hh. by_shape h w; in_trace Hp. in_trace Hh.
  injection Hp as _ Hp. injection Hh as _ Hh. subst perf0 health0.
  split; reflexivity.
Qed.

(** X3. Every run writes to one stream only, and the exit code tells
    which: code 0 with a report on standard output and nothing on
    standard error, or code 1 with a message on standard error and
    nothing on standard output. *)
Theorem exit_code_tells_the_stream {W : Type} (h : sdk Device W) (w : W) :
  (exit_code h w = 0 /\ stdout_of h w <> "" /\ stderr_of h w = "") \/
  (exit_code h w = 1 /\ stdout_of h w = "" /\ stderr_of h w <> "").
Proof.
  by_shape h w.
  - right. repeat split. discriminate.
  - right. repeat split. discriminate.
  - left. repeat split. discriminate.
Qed.

(** X4. Every run calls the SDK first and prints afterwards: its events
    are the SDK calls, which are the scan alone, the scan and the open,
    or the scan, the open, the performance query and the health query in
    this order, followed by the prints. *)
Theorem calls_come_before_prints {W : Type} (h : sdk Device W) (w : W) :
  exists calls printed,
    trace_of h w = (calls ++ printed)%list /\
    forallb (fun e => negb (is_print e)) calls = true /\
    forallb is_print printed = true /\
    (operations calls = [op_scan] \/
     operations calls = [op_scan; op_create] \/
     operations calls = [op_scan; op_create; op_performance; op_health]).
Proof.
  by_shape h w.
  - exists [ev_scan scan0]. eexists. split; [reflexivity|].
    repeat split; auto.
  - exists [ev_scan (Value (id0 :: ids0)); ev_create id0 (Unexpected status0)].
    eexists. split; [reflexivity|]. repeat split; auto.
  - eexists. eexists. split; [reflexivity|].
    split; [reflexivity|]. split; [|auto].
    destruct perf0, health0; reflexivity.
Qed.

Lemma to_signed_wrap bits v :
  0 < bits -> 2 ^ (bits - 1) <= v < 2 ^ bits ->
  to_signed bits v = v - 2 ^ bits.
Proof.
  intros Hb Hv. unfold to_signed.
  assert (H2 : 2 ^ bits = 2 * 2 ^ (bits - 1)).
  { replace bits with (Z.succ (bits - 1)) at 1 by lia.
    apply Z.pow_succ_r. lia. }
  replace (v + 2 ^ (bits - 1))
    with ((v - 2 ^ (bits - 1)) + 1 * 2 ^ bits) by lia.
  rewrite Z.mod_add by lia. rewrite Z.mod_small by lia. lia.
Qed.

(** X5. The integer fields that are read as [int] are printed as the
    signed decimal numeral of their value, negative values included:
    [dsp_utilization], [on_die_voltage], and the status of a failed
    query in [perf_error] and [health_error]. *)
Theorem int_fields_read_back {W : Type} (h : sdk Device W) (w : W) :
  (forall d p,
     In (ev_performance d (Value p)) (trace_of h w) ->
     INT_MIN <= dsp_utilization p <= INT_MAX ->
     renders_signed "dsp_utilization" (dsp_utilization p) (stdout_of h w))
  /\
  (forall d hs,
     In (ev_health d (Value hs)) (trace_of h w) ->
     INT_MIN <= on_die_voltage hs <= INT_MAX ->
     renders_signed "on_die_voltage" (on_die_voltage hs) (stdout_of h w))
  /\
  (forall d s,
     In (ev_performance d (Unexpected s)) (trace_of h w) ->
     INT_MIN <= s <= INT_MAX ->
     renders_signed "perf_error" s (stdout_of h w))
  /\
  (forall d s,
     In (ev_health d (Unexpected s)) (trace_of h w) ->
     INT_MIN <= s <= INT_MAX ->
     renders_signed "health_error" s (stdout_of h w)).
Proof.
  repeat split.
  - intros d p H Hb. by_shape h w; in_trace H.
    injection H as _ H. subst perf0.
    eexists. split; [rewrite field_of_render; reflexivity|].
    rewrite to_int_id by exact Hb. apply numeral_value_decimal.
  - intros d hs H Hb. by_shape h w; in_trace H.
    injection H as _ H. subst health0.
    eexists. split; [rewrite field_of_render; destruct perf0; reflexivity|].
    rewrite to_int_id by exact Hb. apply numeral_value_decimal.
  - intros d s H Hb. by_shape h w; in_trace H.
    injection H as _ H. subst perf0.
    eexists. split; [rewrite field_of_render; reflexivity|].
    rewrite to_int_id by exact Hb. apply numeral_value_decimal.
  - intros d s H Hb. by_shape h w; in_trace H.
    injection H as _ H. subst health0.
    eexists. split; [rewrite field_of_render; destruct perf0; reflexivity|].
    rewrite to_int_id by exact Hb. apply numeral_value_decimal.
Qed.

(** X6. A byte count of [2^63] or more, up to the largest 64-bit
    unsigned value, is printed as the negative numeral of the count less
    [2^64]; a self-test mask with bit 31 set is printed as the negative
    numeral of the mask less [2^32]. *)
Theorem wide_counts_wrap {W : Type} (h : sdk Device W) (w : W) :
  (forall d p,
     In (ev_performance d (Value p)) (trace_of h w) ->
     (2 ^ 63 <= ram_size_total p <= UINT64_MAX ->
      renders_signed "ram_size_total" (ram_size_total p - 2 ^ 64)
        (stdout_of h w)) /\
     (2 ^ 63 <= ram_size_used p <= UINT64_MAX ->
      renders_signed "ram_size_used" (ram_size_used p - 2 ^ 64)
        (stdout_of h w)))
  /\
  (forall d hs,
     In (ev_health d (Value hs)) (trace_of h w) ->
     2 ^ 31 <= bist_failure_mask hs <= UINT32_MAX ->
     renders_signed "bist_failure_mask" (bist_failure_mask hs - 2 ^ 32)
       (stdout_of h w)).
Proof.
  split.
  - intros d p H. by_shape h w; in_trace H.
    injection H as _ H. subst perf0.
    split; intros Hb;
      (eexists; split; [rewrite field_of_render; reflexivity|]);
      unfold to_long_long;
      rewrite to_signed_wrap by (unfold UINT64_MAX in Hb; lia);
      apply numeral_value_decimal.
  - intros d hs H Hb. by_shape h w; in_trace H.
    injection H as _ H. subst health0.
    eexists. split; [rewrite field_of_render; destruct perf0; reflexivity|].
    unfold to_int.
    rewrite to_signed_wrap by (unfold UINT32_MAX in Hb; lia).
    apply numeral_value_decimal.
Qed.

(** X7. The flag of a block tells which keys the report has: after a
    successful query the flag is [true] and the block has no [_error]
    key; after a failed one the flag is [false] and the block has none of
    its data keys. *)
Theorem flag_tells_the_keys {W : Type} (h : sdk Device W) (w : W) :
  (forall d perf,
     In (ev_performance d perf) (trace_of h w) ->
     match perf with
     | Value _ =>
         field "perf_ok" (stdout_of h w) = Some "true" /\
         field "perf_error" (stdout_of h w) = None
     | Unexpected _ =>
         field "perf_ok" (stdout_of h w) = Some "false" /\
         field "cpu_utilization" (stdout_of h w) = None /\
         field "ram_size_total" (stdout_of h w) = None /\
         field "ram_size_used" (stdout_of h w) = None /\
         field "nnc_utilization" (stdout_of h w) = None /\
         field "dsp_utilization" (stdout_of h w) = None
     end)
  /\
  (forall d health,
     In (ev_health d health) (trace_of h w) ->
     match health with
     | Value _ =>
         field "health_ok" (stdout_of h w) = Some "true" /\
         field "health_error" (stdout_of h w) = None
     | Unexpected _ =>
         field "health_ok" (stdout_of h w) = Some "false" /\
         field "on_die_temperature" (stdout_of h w) = None /\
         field "on_die_voltage" (stdout_of h w) = None /\
         field "bist_failure_mask" (stdout_of h w) = None
     end).
Proof.
  split.
  - intros d perf H. by_shape h w; in_trace H.
    injection H as _ H. subst perf0.
    rewrite !field_of_render.
    destruct perf, health0; repeat split; reflexivity.
  - intros d health H. by_shape h w; in_trace H.
    injection H as _ H. subst health0.
    rewrite !field_of_render.
    destruct perf0, health; repeat split; reflexivity.
Qed.

(** X8. No key occurs twice in what a run prints. *)
Theorem keys_are_distinct {W : Type} (h : sdk Device W) (w : W) :
  NoDup (keys_of_text (stdout_of h w)).
Proof.
  by_shape h w; try constructor.
  unfold keys_of_text. rewrite members_of_render.
  destruct perf0, health0; cbn [rendered perf_members health_members map app fst];
    repeat (constructor; [cbn [In]; intuition discriminate|]);
    constructor.
Qed.

Lemma floats_finite_prints {R : Type} (p : prog Device R) :
  floats_finite (prints p) = true.
Proof. induction p; simpl; auto. Qed.

(** X9. Two runs that agree on the success or failure of each query, and
    whose queries returned finite floating fields only, print reports of
    one schema: the same keys in the same order, each with a JSON value
    of the same kind, a number or a boolean; and when the queries were
    issued both reports are JSON objects. *)
Theorem finite_reports_have_one_schema {W1 W2 : Type}
  (h1 : sdk Device W1) (w1 : W1) (h2 : sdk Device W2) (w2 : W2) :
  perf_status (trace_of h1 w1) = perf_status (trace_of h2 w2) ->
  health_status (trace_of h1 w1) = health_status (trace_of h2 w2) ->
  floats_finite (trace_of h1 w1) = true ->
  floats_finite (trace_of h2 w2) = true ->
  Json.kinds_of_text (stdout_of h1 w1) =
    Json.kinds_of_text (stdout_of h2 w2) /\
  Forall (fun m => snd m = Some Json.k_number \/
                   snd m = Some Json.k_boolean)
         (Json.kinds_of_text (stdout_of h1 w1)) /\
  (perf_status (trace_of h1 w1) <> None ->
   Json.object_line (stdout_of h1 w1) = true /\
   Json.object_line (stdout_of h2 w2) = true).
Proof.
  intros Hp Hh Hf1 Hf2. by_shape h1 w1; by_shape' h2 w2;
    try discriminate Hp;
    try (split; [reflexivity|]; split; [constructor|];
         intros Hn; now contradiction Hn).
  cbn [app perf_status health_status] in Hp, Hh.
  injection Hp as Hp. injection Hh as Hh.
  cbn [app floats_finite] in Hf1, Hf2.
  rewrite floats_finite_prints, andb_true_r in Hf1, Hf2.
  apply andb_true_iff in Hf1. destruct Hf1 as [Hp1 Hh1].
  apply andb_true_iff in Hf2. destruct Hf2 as [Hp2 Hh2].
  rewrite !kinds_of_render by assumption.
  rewrite !render_json_iff, Hp1, Hh1, Hp2, Hh2.
  split; [|split; [|intros _; split; reflexivity]].
  - destruct perf0, perf1; try discriminate Hp;
      destruct health0, health1; try discriminate Hh; reflexivity.
  - destruct perf0, health0;
      cbn [perf_members health_members app map];
      repeat (apply Forall_cons;
              [first [left; reflexivity | right; reflexivity]|]);
      apply Forall_nil.
Qed.

End Further.

(** ** The further properties at concrete devices *)

Section FurtherInstances.

Import CString Printf CInt Rendering Text Scenario.

Lemma report_is_json_iff_finite_witness :
  In (ev_performance 0%nat (Value (p3_performance binary32)))
     (trace_of inf_device tt) /\
  In (ev_health 0%nat (Value inf_health)) (trace_of inf_device tt) /\
  Json.object_line (stdout_of inf_device tt) =
    finite_performance (Value (p3_performance binary32))
    && finite_health (Value inf_health) /\
  exit_code inf_device tt = 0.
Proof.
  assert (Hp : In (ev_performance 0%nat (Value (p3_performance binary32)))
                  (trace_of inf_device tt))
    by (vm_compute; auto).
  assert (Hh : In (ev_health 0%nat (Value inf_health))
                  (trace_of inf_device tt))
    by (vm_compute; auto 6).
  split; [exact Hp|]. split; [exact Hh|].
  exact (report_is_json_iff_finite inf_device tt 0%nat 0%nat _ _ Hp Hh).
Defined.

Lemma stdout_is_the_rendering_witness :
  In (ev_performance 1%nat (Unexpected 26))
     (trace_of (counting (p3_health binary32) 26) 0%nat) /\
  In (ev_health 1%nat (Value (p3_health binary32)))
     (trace_of (counting (p3_health binary32) 26) 0%nat) /\
  stdout_of (counting (p3_health binary32) 26) 0%nat =
    render_object
      (rendered (perf_members (Unexpected 26)
                 ++ health_members (Value (p3_health binary32)))%list) /\
  stderr_of (counting (p3_health binary32) 26) 0%nat = "".
Proof.
  assert (Hp : In (ev_performance 1%nat (Unexpected 26))
                  (trace_of (counting (p3_health binary32) 26) 0%nat))
    by (vm_compute; auto).
  assert (Hh : In (ev_health 1%nat (Value (p3_health binary32)))
                  (trace_of (counting (p3_health binary32) 26) 0%nat))
    by (vm_compute; auto 6).
  split; [exact Hp|]. split; [exact Hh|].
  exact (stdout_is_the_rendering (counting (p3_health binary32) 26) 0%nat
           1%nat 1%nat _ _ Hp Hh).
Defined.

Lemma int_fields_read_back_witness :
  In (ev_performance 1%nat (Unexpected (-5)))
     (trace_of (counting (p3_health binary32) (-5)) 0%nat) /\
  In (ev_health 1%nat (Value (p3_health binary32)))
     (trace_of (counting (p3_health binary32) (-5)) 0%nat) /\
  renders_signed "perf_error" (-5)
    (stdout_of (counting (p3_health binary32) (-5)) 0%nat) /\
  renders_signed "on_die_voltage" 900
    (stdout_of (counting (p3_health binary32) (-5)) 0%nat).
Proof.
  assert (Hp : In (ev_performance 1%nat (Unexpected (-5)))
                  (trace_of (counting (p3_health binary32) (-5)) 0%nat))
    by (vm_compute; auto).
  assert (Hh : In (ev_health 1%nat (Value (p3_health binary32)))
                  (trace_of (counting (p3_health binary32) (-5)) 0%nat))
    by (vm_compute; auto 6).
  split; [exact Hp|]. split; [exact Hh|].
  destruct (int_fields_read_back (counting (p3_health binary32) (-5)) 0%nat)
    as (_ & Hv & He & _).
  split.
  - apply (He _ _ Hp). unfold INT_MIN, INT_MAX. simpl. lia.
  - apply (Hv _ _ Hh). unfold INT_MIN, INT_MAX. simpl. lia.
Defined.

Lemma wide_counts_wrap_witness :
  In (ev_performance 0%nat (Value large_performance))
     (trace_of large_device tt) /\
  In (ev_health 0%nat (Value large_health)) (trace_of large_device tt) /\
  renders_signed "ram_size_total" (2 ^ 63 - 2 ^ 64)
    (stdout_of large_device tt) /\
  renders_signed "bist_failure_mask" (2 ^ 31 - 2 ^ 32)
    (stdout_of large_device tt).
Proof.
  assert (Hp : In (ev_performance 0%nat (Value large_performance))
                  (trace_of large_device tt))
    by (vm_compute; auto).
  assert (Hh : In (ev_health 0%nat (Value large_health))
                  (trace_of large_device tt))
    by (vm_compute; auto 6).
  split; [exact Hp|]. split; [exact Hh|].
  destruct (wide_counts_wrap large_device tt) as [Hperf Hhealth].
  destruct (Hperf _ _ Hp) as [Ht _].
  split.
  - apply Ht. unfold UINT64_MAX. simpl. lia.
  - apply (Hhealth _ _ Hh). unfold UINT32_MAX. simpl. lia.
Defined.

Lemma flag_tells_the_keys_witness :
  In (ev_performance 1%nat (Unexpected 26))
     (trace_of (counting (p3_health binary32) 26) 0%nat) /\
  field "perf_ok" (stdout_of (counting (p3_health binary32) 26) 0%nat) =
    Some "false" /\
  field "cpu_utilization"
    (stdout_of (counting (p3_health binary32) 26) 0%nat) = None.
Proof.
  assert (Hp : In (ev_performance 1%nat (Unexpected 26))
                  (trace_of (counting (p3_health binary32) 26) 0%nat))
    by (vm_compute; auto).
  split; [exact Hp|].
  destruct (flag_tells_the_keys (counting (p3_health binary32) 26) 0%nat)
    as [Hperf _].
  destruct (Hperf _ _ Hp) as (Hok & Hcpu & _).
  split; assumption.
Defined.

Lemma finite_reports_have_one_schema_witness :
  perf_status (trace_of (p3_device binary32) tt) =
    perf_status (trace_of large_device tt) /\
  health_status (trace_of (p3_device binary32) tt) =
    health_status (trace_of large_device tt) /\
  floats_finite (trace_of (p3_device binary32) tt) = true /\
  floats_finite (trace_of large_device tt) = true /\
  Json.kinds_of_text (stdout_of (p3_device binary32) tt) =
    Json.kinds_of_text (stdout_of large_device tt) /\
  Forall (fun m => snd m = Some Json.k_number \/
                   snd m = Some Json.k_boolean)
         (Json.kinds_of_text (stdout_of (p3_device binary32) tt)) /\
  (perf_status (trace_of (p3_device binary32) tt) <> None ->
   Json.object_line (stdout_of (p3_device binary32) tt) = true /\
   Json.object_line (stdout_of large_device tt) = true).
Proof.
  assert (Hp : perf_status (trace_of (p3_device binary32) tt) =
               perf_status (trace_of large_device tt))
    by (vm_compute; reflexivity).
  assert (Hh : health_status (trace_of (p3_device binary32) tt) =
               health_status (trace_of large_device tt))
    by (vm_compute; reflexivity).
  assert (H1 : floats_finite (trace_of (p3_device binary32) tt) = true)
    by (vm_compute; reflexivity).
  assert (H2 : floats_finite (trace_of large_device tt) = true)
    by (vm_compute; reflexivity).
  split; [exact Hp|]. split; [exact Hh|].
  split; [exact H1|]. split; [exact H2|].
  exact (finite_reports_have_one_schema
           (p3_device binary32) tt large_device tt Hp Hh H1 H2).
Defined.

End FurtherInstances.
